(** * UVM: assembler and interpreter of a four-instruction accumulator machine

    Shallow embedding of [assembler.py] (class [UVMAssembler]) and
    [interpreter.py] (class [UVMInterpreter]), with the driving loop of
    [demo.py], followed by the properties of the instruction codec, of the
    program loader and of the step function.

    Python integers are unbounded, so they are [Z]; [&], [|], [<<] and [>>]
    are [Z.land], [Z.lor], [Z.shiftl] and [Z.shiftr].  A [bytes] object is a
    [list byte].  A Python exception is a value of type [exn]; a function
    that can raise returns a [result]. *)

From Stdlib Require Import ZArith Lia Bool String.
From Stdlib Require Import Init.Byte Strings.Byte.
From stdpp Require Import base option list strings pretty gmap.

Local Open Scope string_scope.
Local Open Scope Z_scope.

(** ** Exceptions *)

(** The text of each [ValueError] of the two classes, by the place that
    raises it. *)
Inductive value_error : Type :=
  | UnknownOperation                      (* "Неизвестная операция" *)
  | OperandNotInteger                     (* "Операнд должен быть целым числом" *)
  | ConstantOutOfRange (operand : Z)      (* "Константа вне диапазона" *)
  | AddressNotNonNegative                 (* "Адрес должен быть неотрицательным целым" *)
  | AddressTooLarge (operand : Z)         (* "Адрес слишком большой" *)
  | MissingField (key : string)           (* "Отсутствует обязательное поле", from KeyError *)
  | BadCommandLength                      (* "Команда должна быть длиной 5 байт" *)
  | BadProgramSize                        (* "Некорректный размер программы" *)
  | UnknownOpcode (code : Z).             (* "Неизвестный код операции" *)

Inductive exn : Type :=
  | ValueError (why : value_error)
  | KeyError (key : string)
  | TypeError
  | MemoryError (address : Z)             (* "Выход за границы памяти" *)
  | OverflowError                         (* int.to_bytes *)
  | IndexError                            (* list index out of range *)
  | StructError.                          (* struct.error of pack and unpack *)

Inductive result (A : Type) : Type :=
  | Ok (a : A)
  | Raise (e : exn).
Arguments Ok {A} a.
Arguments Raise {A} e.

Definition rbind {A B} (r : result A) (k : A -> result B) : result B :=
  match r with
  | Ok a => k a
  | Raise e => Raise e
  end.

#[global] Instance result_ret : MRet result := fun A a => Ok a.
#[global] Instance result_bind : MBind result := fun A B k r => rbind r k.

(** [try: r except e: h e] *)
Definition rcatch {A} (r : result A) (h : exn -> result A) : result A :=
  match r with
  | Ok a => Ok a
  | Raise e => h e
  end.

(** ** Bytes and the [struct] formats *)

Module Bytes.

(** The value of a byte, 0 to 255. *)
Definition to_Z (b : byte) : Z := Z.of_N (Byte.to_N b).

(** The byte of the low eight bits of [z]. *)
Definition of_Z (z : Z) : byte :=
  match Byte.of_N (Z.to_N (z mod 256)) with
  | Some b => b
  | None => x00
  end.

(** [int.from_bytes(bs, 'little')] *)
Fixpoint from_bytes_little (bs : list byte) : Z :=
  match bs with
  | [] => 0
  | b :: bs' => to_Z b + 256 * from_bytes_little bs'
  end.

(** The [n] low bytes of [z], least significant first. *)
Fixpoint little (n : nat) (z : Z) : list byte :=
  match n with
  | O => []
  | S n' => of_Z z :: little n' (z / 256)
  end.

(** [z.to_bytes(n, 'little')]: [OverflowError] on a negative [z] and on
    one that does not fit [n] bytes. *)
Definition to_bytes_little (n : nat) (z : Z) : result (list byte) :=
  if (0 <=? z) && (z <? 256 ^ Z.of_nat n) then Ok (little n z)
  else Raise OverflowError.

(** [struct.pack('<BI', byte0, rest)]: one unsigned byte, then an unsigned
    32-bit integer, little-endian, no padding. *)
Definition pack_BI (byte0 rest : Z) : result (list byte) :=
  if (0 <=? byte0) && (byte0 <=? 255) && (0 <=? rest) && (rest <=? 4294967295)
  then Ok (of_Z byte0 :: little 4 rest)
  else Raise StructError.

(** [struct.unpack('<BI', bs)] *)
Definition unpack_BI (bs : list byte) : result (Z * Z) :=
  match bs with
  | [b0; b1; b2; b3; b4] => Ok (to_Z b0, from_bytes_little [b1; b2; b3; b4])
  | _ => Raise StructError
  end.

(** [bs[i:j]] for [0 <= i <= j]. *)
Definition slice (bs : list byte) (i j : nat) : list byte :=
  take (j - i)%nat (drop i bs).

End Bytes.

(** ** Python lists indexed by an integer *)

Module PyList.

(** The position that index [i] denotes in a list of length [n]: a
    negative index counts from the end. *)
Definition position (n : nat) (i : Z) : option nat :=
  if (0 <=? i) && (i <? Z.of_nat n) then Some (Z.to_nat i)
  else if (- Z.of_nat n <=? i) && (i <? 0) then Some (Z.to_nat (i + Z.of_nat n))
  else None.

(** [l[i]] *)
Definition getitem (l : list Z) (i : Z) : result Z :=
  match position (length l) i with
  | Some k =>
      match l !! k with
      | Some v => Ok v
      | None => Raise IndexError
      end
  | None => Raise IndexError
  end.

(** [l[i] = v] *)
Definition setitem (l : list Z) (i : Z) (v : Z) : result (list Z) :=
  match position (length l) i with
  | Some k => Ok (<[k:=v]> l)
  | None => Raise IndexError
  end.

End PyList.

(** ** The assembler: class [UVMAssembler] *)

(** A value as [json.loads] returns it.  The elements of an array and the
    members of an object that stands where a scalar is expected play no
    role, nor does the value of a float. *)
Inductive json : Type :=
  | JNull
  | JBool (b : bool)
  | JInt (z : Z)
  | JFloat
  | JString (s : string)
  | JArray
  | JObject.

Module UVMAssembler.

(** The class attribute [OPCODES], in the order of the dict literal. *)
Definition OPCODES : list (string * Z) :=
  [("LOAD_CONST", 58); ("LOAD_MEM", 19); ("STORE_MEM", 24); ("ABS", 7)].

(** [OPCODES.get(name)] *)
Definition OPCODES_get (name : string) : option Z :=
  snd <$> List.find (fun item => String.eqb (fst item) name) OPCODES.

(** An entry of [internal_repr], and the result of
    [disassemble_command]: a dict with these three keys. *)
Record command : Type := Command {
  opcode : string;
  opcode_num : Z;
  operand : Z
}.

(** [cmd[key]] *)
Definition subscript (cmd : gmap string json) (key : string) : result json :=
  match cmd !! key with
  | Some v => Ok v
  | None => Raise (KeyError key)
  end.

(** [isinstance(v, int)], with the integer when it holds: [bool] is a
    subclass of [int], [True] counting as 1 and [False] as 0. *)
Definition as_int (v : json) : option Z :=
  match v with
  | JInt z => Some z
  | JBool b => Some (Z.b2z b)
  | _ => None
  end.

(** The body of the loop of [parse_program], for one [cmd]. *)
Definition parse_command (cmd : gmap string json) : result command :=
  opcode ← subscript cmd "opcode";
  operand ← subscript cmd "operand";
  name ← match opcode with
         | JString s =>
             match OPCODES_get s with
             | Some _ => Ok s
             | None => Raise (ValueError UnknownOperation)
             end
         | JArray | JObject => Raise TypeError   (* unhashable *)
         | _ => Raise (ValueError UnknownOperation)
         end;
  operand ←
    (if String.eqb name "LOAD_CONST" then
       match as_int operand with
       | None => Raise (ValueError OperandNotInteger)
       | Some operand =>
           if (operand <? - 0x10000) || (operand >? 0x1FFFF)
           then Raise (ValueError (ConstantOutOfRange operand))
           else if operand <? 0 then Ok (Z.shiftl 1 17 + operand)
           else Ok operand
       end
     else
       match as_int operand with
       | None => Raise (ValueError AddressNotNonNegative)
       | Some operand =>
           if operand <? 0 then Raise (ValueError AddressNotNonNegative)
           else if operand >? 0x7FFFFFFF
           then Raise (ValueError (AddressTooLarge operand))
           else Ok operand
       end);
  code ← match OPCODES_get name with
         | Some code => Ok code
         | None => Raise (KeyError name)
         end;
  Ok {| opcode := name; opcode_num := code; operand := operand |}.

Fixpoint parse_loop (internal_repr : list command)
    (commands : list (gmap string json)) : result (list command) :=
  match commands with
  | [] => Ok internal_repr
  | cmd :: commands' =>
      entry ← parse_command cmd;
      parse_loop (internal_repr ++ [entry]) commands'
  end.

(** [parse_program], from the loop over [commands] on: [commands] is the
    JSON array of objects that [json.loads] returned. *)
Definition parse_program (commands : list (gmap string json))
    : result (list command) :=
  rcatch (parse_loop [] commands)
    (fun e =>
       match e with
       | KeyError key => Raise (ValueError (MissingField key))
       | _ => Raise e
       end).

(** The body of the loop of [assemble_to_bytes]: the five bytes of one
    command. *)
Definition assemble_command (cmd : command) : result (list byte) :=
  let opcode := opcode_num cmd in
  let operand := operand cmd in
  let '(byte0, rest) :=
    if String.eqb (UVMAssembler.opcode cmd) "LOAD_CONST" then
      let operand :=
        if operand >? 0x1FFFF then Z.land operand 0x1FFFF else operand in
      (Z.lor opcode (Z.shiftl (Z.land operand 0x3) 6), Z.shiftr operand 2)
    else
      (Z.lor opcode (Z.shiftl (Z.land operand 0x3) 6), Z.shiftr operand 2) in
  Bytes.pack_BI byte0 rest.

Fixpoint assemble_loop (binary_data : list byte)
    (internal_repr : list command) : result (list byte) :=
  match internal_repr with
  | [] => Ok binary_data
  | cmd :: internal_repr' =>
      command_bytes ← assemble_command cmd;
      assemble_loop (binary_data ++ command_bytes) internal_repr'
  end.

Definition assemble_to_bytes (internal_repr : list command)
    : result (list byte) :=
  assemble_loop [] internal_repr.

(** The first name of [OPCODES.items()] whose code is [opcode_num]. *)
Definition mnemonic (opcode_num : Z) : option string :=
  fst <$> List.find (fun item => snd item =? opcode_num) OPCODES.

Definition disassemble_command (command_bytes : list byte) : result command :=
  if negb (length command_bytes =? 5)%nat
  then Raise (ValueError BadCommandLength)
  else
    '(byte0, rest) ← Bytes.unpack_BI command_bytes;
    let opcode_num := Z.land byte0 0x3F in
    let operand_low := Z.land (Z.shiftr byte0 6) 0x3 in
    let operand := Z.lor (Z.shiftl rest 2) operand_low in
    let operand :=
      if opcode_num =? 58 then
        if negb (Z.land operand 0x10000 =? 0)
        then operand - Z.shiftl 1 17
        else operand
      else operand in
    let opcode_name :=
      match mnemonic opcode_num with
      | Some name => name
      | None => "UNKNOWN_" +:+ pretty opcode_num
      end in
    Ok {| opcode := opcode_name; opcode_num := opcode_num; operand := operand |}.

End UVMAssembler.

(** ** The interpreter: class [UVMInterpreter] *)

Module UVMInterpreter.

(** The attributes of an instance.  [memory] holds Python integers; [pc]
    is a Python integer too, and indexes [memory] as Python does. *)
Record machine : Type := Machine {
  memory : list Z;
  accumulator : Z;
  pc : Z;
  halted : bool
}.

(** A method body: it reads and assigns the attributes of [self] and
    returns or raises; what it assigned before it raised stays
    assigned. *)
Definition exec (A : Type) : Type := machine -> machine * result A.

#[global] Instance exec_ret : MRet exec := fun A a self => (self, Ok a).

#[global] Instance exec_bind : MBind exec := fun A B k c self =>
  match c self with
  | (self', Ok a) => k a self'
  | (self', Raise e) => (self', Raise e)
  end.

Definition raise {A} (e : exn) : exec A := fun self => (self, Raise e).

Definition lift {A} (r : result A) : exec A := fun self => (self, r).

(** [try: c except Exception as e: h e] *)
Definition try_except {A} (c : exec A) (h : exn -> exec A) : exec A :=
  fun self =>
    match c self with
    | (self', Ok a) => (self', Ok a)
    | (self', Raise e) => h e self'
    end.

Definition get {A} (attribute : machine -> A) : exec A :=
  fun self => (self, Ok (attribute self)).

Definition set_memory (v : list Z) : exec unit := fun self =>
  ({| memory := v; accumulator := accumulator self;
      pc := pc self; halted := halted self |}, Ok tt).

Definition set_accumulator (v : Z) : exec unit := fun self =>
  ({| memory := memory self; accumulator := v;
      pc := pc self; halted := halted self |}, Ok tt).

Definition set_pc (v : Z) : exec unit := fun self =>
  ({| memory := memory self; accumulator := accumulator self;
      pc := v; halted := halted self |}, Ok tt).

Definition set_halted (v : bool) : exec unit := fun self =>
  ({| memory := memory self; accumulator := accumulator self;
      pc := pc self; halted := v |}, Ok tt).

(** [for x in xs: body x] *)
Fixpoint for_in {A} (xs : list A) (body : A -> exec unit) : exec unit :=
  match xs with
  | [] => mret tt
  | x :: xs' => body x ≫= fun _ => for_in xs' body
  end.

(** [range(start, stop, step)] for a positive [step]. *)
Definition range (start stop step : Z) : list Z :=
  (fun k => start + Z.of_nat k * step)
    <$> seq 0 (Z.to_nat ((stop - start + step - 1) / step)).

(** [UVMInterpreter(memory_size)]; the default [memory_size] is 2048. *)
Definition __init__ (memory_size : Z) : machine :=
  {| memory := replicate (Z.to_nat memory_size) 0;
     accumulator := 0; pc := 0; halted := false |}.

Definition len {A} (l : list A) : Z := Z.of_nat (length l).

(** The body of the loop of [load_program], for one [i]. *)
Definition load_word (binary_data : list byte) (i : Z) : exec unit :=
  memory1 ← get memory;
  if i / 5 <? len memory1 then
    let word :=
      Bytes.from_bytes_little
        (Bytes.slice binary_data (Z.to_nat i) (Z.to_nat (i + 5))) in
    memory2 ← lift (PyList.setitem memory1 (i / 5) word);
    set_memory memory2
  else mret tt.

Definition load_program (binary_data : list byte) : exec unit :=
  if negb (len binary_data mod 5 =? 0)
  then raise (ValueError BadProgramSize)
  else
    memory0 ← get memory;
    set_memory (replicate (length memory0) 0);;
    set_accumulator 0;;
    set_pc 0;;
    set_halted false;;
    let program_size := len binary_data in
    for_in (range 0 program_size 5) (load_word binary_data).

(** [decode_command] does not touch [self]. *)
Definition decode_command (command : Z) : result (Z * Z) :=
  command_bytes ← Bytes.to_bytes_little 5 command;
  '(byte0, rest) ← Bytes.unpack_BI command_bytes;
  let opcode := Z.land byte0 0x3F in
  let operand_low := Z.land (Z.shiftr byte0 6) 0x3 in
  let operand := Z.lor (Z.shiftl rest 2) operand_low in
  Ok (opcode, operand).

(** [execute_step].  The handler's [print] of the error message is left
    out: standard output is not part of the machine. *)
Definition execute_step : exec bool :=
  halted0 ← get halted;
  pc0 ← get pc;
  memory0 ← get memory;
  if halted0 || (pc0 >=? len memory0) then mret false
  else
    command ← lift (PyList.getitem memory0 pc0);
    if command =? 0 then mret false
    else
      '(opcode, operand) ← lift (decode_command command);
      try_except
        ((if opcode =? 58 then
            let operand :=
              if negb (Z.land operand 0x10000 =? 0)
              then operand - Z.shiftl 1 17
              else operand in
            set_accumulator operand
          else if opcode =? 19 then
            memory1 ← get memory;
            if operand >=? len memory1
            then raise (MemoryError operand)
            else
              v ← lift (PyList.getitem memory1 operand);
              set_accumulator v
          else if opcode =? 24 then
            memory1 ← get memory;
            if operand >=? len memory1
            then raise (MemoryError operand)
            else
              accumulator1 ← get accumulator;
              memory2 ← lift (PyList.setitem memory1 operand accumulator1);
              set_memory memory2
          else if opcode =? 7 then
            accumulator1 ← get accumulator;
            set_accumulator (Z.abs accumulator1);;
            memory1 ← get memory;
            if operand >=? len memory1
            then raise (MemoryError operand)
            else
              accumulator2 ← get accumulator;
              memory2 ← lift (PyList.setitem memory1 operand accumulator2);
              set_memory memory2
          else raise (ValueError (UnknownOpcode opcode)));;
         pc1 ← get pc;
         set_pc (pc1 + 1);;
         mret true)
        (fun e => set_halted true;; mret false).

(** [run]: [while self.execute_step(): pass], for at most [fuel] calls
    of [execute_step]; [None] when the fuel ran out before a call
    returned [False]. *)
Fixpoint run (fuel : nat) : exec (option unit) :=
  match fuel with
  | O => mret None
  | S fuel' =>
      stepped ← execute_step;
      if stepped : bool then run fuel' else mret (Some tt)
  end.

(** [get_state]: the attributes, with a copy of [memory]; a list value is
    its own copy. *)
Definition get_state : exec machine :=
  memory0 ← get memory;
  accumulator0 ← get accumulator;
  pc0 ← get pc;
  halted0 ← get halted;
  mret {| memory := memory0; accumulator := accumulator0;
          pc := pc0; halted := halted0 |}.

(** [get_memory_cell] *)
Definition get_memory_cell (address : Z) : exec (option Z) :=
  memory0 ← get memory;
  if (0 <=? address) && (address <? len memory0)
  then v ← lift (PyList.getitem memory0 address); mret (Some v)
  else mret None.

End UVMInterpreter.

(** ** The demonstration: [demo.py] *)

Module Demo.
Import UVMAssembler UVMInterpreter.

(** The JSON object [{"opcode": name, "operand": operand}]. *)
Definition instruction (name : string) (operand : Z) : gmap string json :=
  {[ "opcode" := JString name; "operand" := JInt operand ]}.

(** [test_program] of [demo_basic]. *)
Definition test_program : list (gmap string json) :=
  [ instruction "LOAD_CONST" 42;
    instruction "STORE_MEM" 100;
    instruction "LOAD_CONST" 15;
    instruction "ABS" 101;
    instruction "LOAD_MEM" 100 ].

(** [assembler.assemble_to_bytes(assembler.parse_program(json_data))] *)
Definition assemble (commands : list (gmap string json)) : result (list byte) :=
  internal_repr ← parse_program commands;
  assemble_to_bytes internal_repr.

(** The loop of [demo_basic], [while interpreter.execute_step(): step += 1],
    for at most [fuel] calls; it returns the final [step]. *)
Fixpoint stepping (fuel : nat) (step : Z) : exec (option Z) :=
  match fuel with
  | O => mret None
  | S fuel' =>
      stepped ← execute_step;
      if stepped : bool then stepping fuel' (step + 1) else mret (Some step)
  end.

(** Assemble [commands], load them into a fresh machine of [memory_size]
    cells and step it until [execute_step] returns [False]. *)
Definition demo (memory_size : Z) (commands : list (gmap string json))
    (fuel : nat) : result (machine * result (option Z)) :=
  binary_data ← assemble commands;
  Ok ((load_program binary_data;; stepping fuel 0) (__init__ memory_size)).

End Demo.

(** ** The self-test of [assembler.py]: function [run_tests] *)

Module Tests.
Import UVMAssembler Demo.

(** What [run_tests] does with the negative constant: assemble the one
    instruction, then disassemble its bytes. *)
Definition round_trip (name : string) (operand : Z) : result command :=
  binary_data ← assemble [instruction name operand];
  disassemble_command binary_data.

End Tests.

(** ** Notions used in the statements *)

Module Notions.
Import UVMInterpreter.

(** A machine on which [execute_step] gets as far as dispatching on a
    decoded instruction: it is not halted, the program counter is below
    the memory length, the word it fetches is not zero and decodes to
    [opcode] and [operand]. *)
Definition dispatches (self : machine) (opcode operand : Z) : Prop :=
  halted self = false /\
  pc self < len (memory self) /\
  exists command : Z,
    PyList.getitem (memory self) (pc self) = Ok command /\
    command <> 0 /\
    decode_command command = Ok (opcode, operand).

(** Instruction word [i] of a binary program: bytes [5i, 5i+5) read as a
    little-endian integer. *)
Definition instruction_word (binary_data : list byte) (i : nat) : Z :=
  Bytes.from_bytes_little (Bytes.slice binary_data (5 * i) (5 * i + 5)).

(** A zeroed memory of [n] cells after words [0] to [j - 1] were
    written to it. *)
Definition loaded_memory (n : nat) (binary_data : list byte) (j : nat) : list Z :=
  (fun i => if (i <? j)%nat then instruction_word binary_data i else 0)
    <$> seq 0 n.

(** The sign that [disassemble_command] and [execute_step] give to a raw
    [LOAD_CONST] operand. *)
Definition signed17 (operand : Z) : Z :=
  if negb (Z.land operand 0x10000 =? 0) then operand - Z.shiftl 1 17 else operand.

End Notions.

(** * Properties *)

Import UVMAssembler UVMInterpreter Demo.
Import Notions.

(** Unfold the plumbing of a method body, down to the tests it makes. *)
Ltac exec_unfold :=
  cbv [execute_step mbind exec_bind mret exec_ret get lift raise try_except
       set_memory set_accumulator set_pc set_halted
       memory accumulator pc halted].

(** ** Bytes and little-endian integers *)

Section ByteFacts.

Lemma to_Z_range (b : byte) : 0 <= Bytes.to_Z b < 256.
Proof.
  unfold Bytes.to_Z. pose proof (Byte.to_N_bounded b) as Hb.
  split; [apply N2Z.is_nonneg | lia].
Qed.

Lemma to_Z_of_Z (z : Z) : Bytes.to_Z (Bytes.of_Z z) = z mod 256.
Proof.
  unfold Bytes.to_Z, Bytes.of_Z.
  pose proof (Z.mod_pos_bound z 256 eq_refl) as [Hlo Hhi].
  destruct (Byte.of_N (Z.to_N (z mod 256))) as [b|] eqn:Hof.
  - apply Byte.to_of_N in Hof. rewrite Hof. lia.
  - apply Byte.of_N_None_iff in Hof. lia.
Qed.

Lemma length_little (n : nat) (z : Z) : length (Bytes.little n z) = n.
Proof. revert z. induction n as [|n IH]; intros z; simpl; [done | by rewrite IH]. Qed.

Lemma from_bytes_little_range (bs : list byte) :
  0 <= Bytes.from_bytes_little bs < 256 ^ Z.of_nat (length bs).
Proof.
  induction bs as [|b bs IH]; [simpl; lia |].
  cbn [Bytes.from_bytes_little length].
  rewrite Nat2Z.inj_succ, Z.pow_succ_r by lia.
  pose proof (to_Z_range b). lia.
Qed.

(** Writing [z] on [n] bytes and reading them back gives [z], when [z]
    fits. *)
Lemma from_bytes_little_little (n : nat) (z : Z) :
  0 <= z < 256 ^ Z.of_nat n ->
  Bytes.from_bytes_little (Bytes.little n z) = z.
Proof.
  revert z. induction n as [|n IH]; intros z Hz.
  - simpl in *. lia.
  - cbn [Bytes.little Bytes.from_bytes_little].
    rewrite Nat2Z.inj_succ, Z.pow_succ_r in Hz by lia.
    rewrite to_Z_of_Z, IH.
    + pose proof (Z.div_mod z 256). lia.
    + split; [apply Z.div_pos; lia | apply Z.div_lt_upper_bound; lia].
Qed.

End ByteFacts.

(** ** The bit layout of the first byte *)

Section BitFacts.

Lemma testbit_above (a k n : Z) :
  0 <= a < 2 ^ k -> k <= n -> Z.testbit a n = false.
Proof.
  intros [Hlo Hhi] Hkn.
  destruct (Z.eq_dec a 0) as [-> | Hne]; [apply Z.bits_0 |].
  apply Z.bits_above_log2; [lia |].
  assert (Z.log2 a < k) by (apply Z.log2_lt_pow2; lia). lia.
Qed.

Lemma testbit_3 (n : Z) : 0 <= n -> Z.testbit 3 n = (n <? 2).
Proof. intros Hn. change 3 with (Z.ones 2). apply Z.testbit_ones_nonneg; lia. Qed.

Lemma testbit_63 (n : Z) : 0 <= n -> Z.testbit 63 n = (n <? 6).
Proof. intros Hn. change 63 with (Z.ones 6). apply Z.testbit_ones_nonneg; lia. Qed.

(** [opcode | (low << 6)] keeps [opcode] in its six low bits ... *)
Lemma byte0_opcode (opcode low : Z) :
  0 <= opcode < 64 ->
  Z.land (Z.lor opcode (Z.shiftl low 6)) 0x3F = opcode.
Proof.
  intros Hop. apply Z.bits_inj'. intros n Hn.
  rewrite Z.land_spec, Z.lor_spec, testbit_63 by done.
  destruct (n <? 6) eqn:Hlt.
  - rewrite Z.shiftl_spec_low by lia. by rewrite orb_false_r, andb_true_r.
  - rewrite andb_false_r. symmetry. apply (testbit_above _ 6); lia.
Qed.

(** ... and [low] in the two bits above them; *)
Lemma byte0_low (opcode low : Z) :
  0 <= opcode < 64 -> 0 <= low < 4 ->
  Z.land (Z.shiftr (Z.lor opcode (Z.shiftl low 6)) 6) 0x3 = low.
Proof.
  intros Hop Hlow. apply Z.bits_inj'. intros n Hn.
  rewrite Z.land_spec, Z.shiftr_spec, Z.lor_spec, Z.shiftl_spec by lia.
  rewrite (testbit_above opcode 6 (n + 6)) by lia.
  replace (n + 6 - 6) with n by lia. rewrite orb_false_l, testbit_3 by done.
  destruct (n <? 2) eqn:Hlt; [by rewrite andb_true_r |].
  rewrite andb_false_r. symmetry. apply (testbit_above _ 2); lia.
Qed.

(** it fits a byte. *)
Lemma byte0_range (opcode low : Z) :
  0 <= opcode < 64 -> 0 <= low < 4 ->
  0 <= Z.lor opcode (Z.shiftl low 6) <= 255.
Proof.
  intros Hop Hlow. set (b := Z.lor opcode (Z.shiftl low 6)).
  assert (Hb : Z.land b (Z.ones 8) = b).
  { apply Z.bits_inj'. intros n Hn. unfold b.
    rewrite Z.land_spec, Z.lor_spec, Z.testbit_ones_nonneg by lia.
    destruct (n <? 8) eqn:Hlt; [by rewrite andb_true_r |].
    rewrite andb_false_r, Z.shiftl_spec by lia.
    rewrite (testbit_above opcode 6 n), (testbit_above low 2 (n - 6)) by lia.
    done. }
  rewrite Z.land_ones in Hb by lia.
  pose proof (Z.mod_pos_bound b (2 ^ 8) eq_refl). lia.
Qed.

Lemma land_3 (operand : Z) : Z.land operand 0x3 = operand mod 4.
Proof. change 3 with (Z.ones 2). by rewrite Z.land_ones. Qed.

(** [((operand >> 2) << 2) | (operand & 3)] is [operand]. *)
Lemma operand_recombine (operand : Z) :
  Z.lor (Z.shiftl (Z.shiftr operand 2) 2) (Z.land operand 0x3) = operand.
Proof.
  apply Z.bits_inj'. intros n Hn.
  rewrite Z.lor_spec, Z.land_spec, testbit_3 by done.
  destruct (n <? 2) eqn:Hlt.
  - rewrite Z.shiftl_spec_low by lia. by rewrite andb_true_r.
  - rewrite Z.shiftl_spec, Z.shiftr_spec by lia.
    replace (n - 2 + 2) with n by lia. by rewrite andb_false_r, orb_false_r.
Qed.

(** Bit 16 of a 17-bit operand is set from 65536 on. *)
Lemma land_bit16 (operand : Z) :
  0 <= operand < 131072 ->
  (Z.land operand 0x10000 =? 0) = (operand <? 65536).
Proof.
  intros Hop.
  assert (Hland : Z.land operand (2 ^ 16) =
                  if Z.testbit operand 16 then 2 ^ 16 else 0).
  { apply Z.bits_inj'. intros n Hn.
    rewrite Z.land_spec, Z.pow2_bits_eqb by lia.
    destruct (Z.eqb_spec 16 n) as [<- | Hne].
    - rewrite andb_true_r.
      destruct (Z.testbit operand 16); [by rewrite Z.pow2_bits_true | by rewrite Z.bits_0].
    - rewrite andb_false_r.
      destruct (Z.testbit operand 16); [| by rewrite Z.bits_0].
      rewrite Z.pow2_bits_false by lia. done. }
  change 0x10000 with (2 ^ 16) at 1. rewrite Hland.
  pose proof (Z.testbit_spec' operand 16 ltac:(lia)) as Hbit.
  destruct (Z.ltb_spec operand 65536) as [Hlt | Hge].
  - rewrite Z.div_small in Hbit by lia.
    destruct (Z.testbit operand 16); [discriminate | done].
  - assert (Hq : operand / 2 ^ 16 = 1).
    { symmetry. apply (Z.div_unique operand (2 ^ 16) 1 (operand - 65536)); lia. }
    rewrite Hq in Hbit.
    destruct (Z.testbit operand 16); [done | discriminate].
Qed.

End BitFacts.


(** ** Validation: [parse_program] *)

Section Validation.

Lemma subscript_opcode (name : string) (z : Z) :
  subscript (instruction name z) "opcode" = Ok (JString name).
Proof. unfold subscript, instruction. by simplify_map_eq. Qed.

Lemma subscript_operand (name : string) (z : Z) :
  subscript (instruction name z) "operand" = Ok (JInt z).
Proof. unfold subscript, instruction. by simplify_map_eq. Qed.

Lemma parse_command_LOAD_CONST (z : Z) :
  parse_command (instruction "LOAD_CONST" z) =
  if (z <? - 65536) || (z >? 131071)
  then Raise (ValueError (ConstantOutOfRange z))
  else Ok (Command "LOAD_CONST" 58 (if z <? 0 then 131072 + z else z)).
Proof.
  unfold parse_command. rewrite subscript_opcode, subscript_operand.
  cbn -[Z.ltb Z.gtb Z.add].
  destruct ((z <? -65536) || (z >? 131071)); [done |].
  by destruct (z <? 0).
Qed.

Lemma parse_command_address (name : string) (code z : Z) :
  In (name, code) OPCODES -> name <> "LOAD_CONST" ->
  parse_command (instruction name z) =
  if z <? 0 then Raise (ValueError AddressNotNonNegative)
  else if z >? 0x7FFFFFFF then Raise (ValueError (AddressTooLarge z))
  else Ok (Command name code z).
Proof.
  intros Hin Hne. unfold parse_command.
  rewrite subscript_opcode, subscript_operand.
  simpl in Hin.
  destruct Hin as [[= <- <-] | [[= <- <-] | [[= <- <-] | [[= <- <-] | []]]]];
    try done; cbn -[Z.ltb Z.gtb];
    destruct (z <? 0); try done; by destruct (z >? 2147483647).
Qed.

Lemma parse_program_single (cmd : gmap string json) (entry : command) :
  parse_command cmd = Ok entry -> parse_program [cmd] = Ok [entry].
Proof. intros H. unfold parse_program. cbn. by rewrite H. Qed.

Lemma parse_program_single_ValueError (cmd : gmap string json) (why : value_error) :
  parse_command cmd = Raise (ValueError why) ->
  parse_program [cmd] = Raise (ValueError why).
Proof. intros H. unfold parse_program. cbn. by rewrite H. Qed.

(** The loop validates the instructions one by one, in order: when each
    is accepted, so is the program, entry for entry. *)
Lemma parse_loop_Forall2 (internal_repr : list command)
    (commands : list (gmap string json)) (entries : list command) :
  Forall2 (fun cmd entry => parse_command cmd = Ok entry) commands entries ->
  parse_loop internal_repr commands = Ok (internal_repr ++ entries)%list.
Proof.
  intros Hall. revert internal_repr.
  induction Hall as [|cmd entry commands entries Hcmd _ IH]; intros internal_repr.
  - cbn. by rewrite app_nil_r.
  - cbn [parse_loop]. rewrite Hcmd. cbn [mbind result_bind rbind].
    rewrite IH. by rewrite <- app_assoc.
Qed.

Lemma parse_program_Forall2 (commands : list (gmap string json))
    (entries : list command) :
  Forall2 (fun cmd entry => parse_command cmd = Ok entry) commands entries ->
  parse_program commands = Ok entries.
Proof.
  intros Hall. unfold parse_program.
  by rewrite (parse_loop_Forall2 [] _ _ Hall).
Qed.

End Validation.

(** ** The codec: [assemble_to_bytes] and [disassemble_command] *)

Section Codec.

(** [struct.unpack] undoes [struct.pack]. *)
Lemma unpack_pack_BI (byte0 rest : Z) (bs : list byte) :
  Bytes.pack_BI byte0 rest = Ok bs ->
  length bs = 5%nat /\ Bytes.unpack_BI bs = Ok (byte0, rest).
Proof.
  unfold Bytes.pack_BI.
  destruct ((0 <=? byte0) && (byte0 <=? 255) && (0 <=? rest)
            && (rest <=? 4294967295)) eqn:Hrange; [| done].
  intros [= <-]. split; [done |].
  transitivity (Ok (A := Z * Z) (Bytes.to_Z (Bytes.of_Z byte0),
                  Bytes.from_bytes_little (Bytes.little 4 rest))); [done |].
  rewrite to_Z_of_Z, from_bytes_little_little, Z.mod_small; [done | lia |].
  change (256 ^ Z.of_nat 4) with 4294967296. lia.
Qed.

Lemma mnemonic_OPCODES (name : string) (code : Z) :
  In (name, code) OPCODES -> 0 <= code < 64 /\ mnemonic code = Some name.
Proof.
  simpl.
  intros [[= <- <-] | [[= <- <-] | [[= <- <-] | [[= <- <-] | []]]]];
    (split; [lia | done]).
Qed.

(** The bytes of one validated command disassemble to that command, up
    to the sign that bit 16 stands for in a [LOAD_CONST]. *)
Lemma disassemble_assemble_command (name : string) (code operand : Z) :
  In (name, code) OPCODES ->
  0 <= operand <= 0x7FFFFFFF ->
  (name = "LOAD_CONST" -> operand <= 0x1FFFF) ->
  exists bs,
    assemble_command (Command name code operand) = Ok bs /\
    length bs = 5%nat /\
    disassemble_command bs =
      Ok (Command name code
            (if (code =? 58) && (65536 <=? operand)
             then operand - 131072 else operand)).
Proof.
  intros Hin Hop Hconst.
  destruct (mnemonic_OPCODES _ _ Hin) as [Hcode Hname].
  set (low := Z.land operand 0x3).
  assert (Hlow : 0 <= low < 4).
  { unfold low. rewrite land_3. by apply Z.mod_pos_bound. }
  assert (Hrest : 0 <= Z.shiftr operand 2 <= 4294967295).
  { rewrite Z.shiftr_div_pow2 by lia. change (2 ^ 2) with 4.
    split; [apply Z.div_pos; lia |].
    assert (operand / 4 < 4294967296) by (apply Z.div_lt_upper_bound; lia).
    lia. }
  pose proof (byte0_range code low Hcode Hlow) as Hbyte0.
  assert (Hasm : assemble_command (Command name code operand) =
                 Bytes.pack_BI (Z.lor code (Z.shiftl low 6)) (Z.shiftr operand 2)).
  { unfold assemble_command. cbn [opcode opcode_num UVMAssembler.operand].
    destruct (String.eqb name "LOAD_CONST") eqn:Heq; [| done].
    apply String.eqb_eq in Heq. specialize (Hconst Heq).
    destruct (Z.gtb_spec operand 0x1FFFF); [lia | done]. }
  destruct (Bytes.pack_BI (Z.lor code (Z.shiftl low 6)) (Z.shiftr operand 2))
    as [bs|e] eqn:Hpack.
  2: { unfold Bytes.pack_BI in Hpack.
       destruct (Z.leb_spec 0 (Z.lor code (Z.shiftl low 6))); [| lia].
       destruct (Z.leb_spec (Z.lor code (Z.shiftl low 6)) 255); [| lia].
       destruct (Z.leb_spec 0 (Z.shiftr operand 2)); [| lia].
       destruct (Z.leb_spec (Z.shiftr operand 2) 4294967295); [| lia].
       done. }
  exists bs. destruct (unpack_pack_BI _ _ _ Hpack) as [Hlen Hunpack].
  split; [done |]. split; [done |].
  unfold disassemble_command. rewrite Hlen, Hunpack.
  cbn [negb Nat.eqb mbind result_bind rbind].
  rewrite byte0_opcode, byte0_low by done.
  unfold low. rewrite operand_recombine, Hname.
  destruct (code =? 58) eqn:Hc; [| done].
  apply Z.eqb_eq in Hc. subst code.
  assert (name = "LOAD_CONST") as Hn.
  { simpl in Hin.
    by destruct Hin as [[= <-] | [[=] | [[=] | [[=] | []]]]]. }
  specialize (Hconst Hn). rewrite land_bit16 by lia.
  cbn [andb]. by destruct (Z.ltb_spec operand 65536), (Z.leb_spec 65536 operand); try lia.
Qed.

Lemma assemble_to_bytes_single (cmd : command) (bs : list byte) :
  assemble_command cmd = Ok bs -> assemble_to_bytes [cmd] = Ok bs.
Proof. intros H. unfold assemble_to_bytes. cbn. by rewrite H. Qed.

(** The bytes of a program are those of its commands, in order. *)
Lemma assemble_loop_Forall2 (binary_data : list byte)
    (internal_repr : list command) (chunks : list (list byte)) :
  Forall2 (fun cmd bs => assemble_command cmd = Ok bs) internal_repr chunks ->
  assemble_loop binary_data internal_repr = Ok (binary_data ++ concat chunks)%list.
Proof.
  intros Hall. revert binary_data.
  induction Hall as [|cmd bs internal_repr chunks Hcmd _ IH]; intros binary_data.
  - cbn. by rewrite app_nil_r.
  - cbn [assemble_loop concat]. rewrite Hcmd. cbn [mbind result_bind rbind].
    rewrite IH. by rewrite <- app_assoc.
Qed.

End Codec.

(** ** Round trip through the assembler and the disassembler *)

Section RoundTrip.

(** A [LOAD_CONST] that validation accepts comes back as the signed
    reading of its 17-bit fold. *)
Lemma round_trip_LOAD_CONST (z : Z) :
  -65536 <= z <= 131071 ->
  Tests.round_trip "LOAD_CONST" z =
  Ok (Command "LOAD_CONST" 58 (if z <? 65536 then z else z - 131072)).
Proof.
  intros Hz. unfold Tests.round_trip, assemble.
  set (folded := if z <? 0 then 131072 + z else z).
  assert (Hfolded : 0 <= folded <= 131071).
  { unfold folded. destruct (Z.ltb_spec z 0); lia. }
  assert (Hparse : parse_program [instruction "LOAD_CONST" z] =
                   Ok [Command "LOAD_CONST" 58 folded]).
  { apply parse_program_single. rewrite parse_command_LOAD_CONST.
    destruct (Z.ltb_spec z (-65536)); [lia |].
    destruct (Z.gtb_spec z 131071); [lia | done]. }
  destruct (disassemble_assemble_command "LOAD_CONST" 58 folded)
    as (bs & Hasm & _ & Hdis); [by left | lia | intros _; lia |].
  rewrite Hparse. cbn [mbind result_bind rbind].
  rewrite (assemble_to_bytes_single _ _ Hasm). cbn [mbind result_bind rbind].
  rewrite Hdis. do 2 f_equal.
  change (58 =? 58) with true. cbn [andb]. unfold folded.
  repeat match goal with
         | |- context [Z.ltb ?a ?b] => destruct (Z.ltb_spec a b)
         | |- context [Z.leb ?a ?b] => destruct (Z.leb_spec a b)
         end; lia.
Qed.

Lemma round_trip_address (name : string) (code z : Z) :
  In (name, code) OPCODES -> name <> "LOAD_CONST" ->
  0 <= z <= 0x7FFFFFFF ->
  Tests.round_trip name z = Ok (Command name code z).
Proof.
  intros Hin Hne Hz. unfold Tests.round_trip, assemble.
  assert (Hparse : parse_program [instruction name z] = Ok [Command name code z]).
  { apply parse_program_single. rewrite (parse_command_address _ code) by done.
    destruct (Z.ltb_spec z 0); [lia |].
    destruct (Z.gtb_spec z 0x7FFFFFFF); [lia | done]. }
  destruct (disassemble_assemble_command name code z)
    as (bs & Hasm & _ & Hdis); [done | lia | done |].
  rewrite Hparse. cbn [mbind result_bind rbind].
  rewrite (assemble_to_bytes_single _ _ Hasm). cbn [mbind result_bind rbind].
  rewrite Hdis. do 2 f_equal.
  destruct (code =? 58) eqn:Hc; [| done].
  apply Z.eqb_eq in Hc. subst code. simpl in Hin.
  by destruct Hin as [[= <-] | [[=] | [[=] | [[=] | []]]]].
Qed.

End RoundTrip.

(** C1, as the spec states it, fails at [LOAD_CONST 65536]: validation
    accepts the operand (it lies in [-65536, 131071]), and the disassembler
    gives back -65536, because bit 16 of the 17-bit field is read as the
    sign. *)
Lemma round_trip_LOAD_CONST_65536 :
  In ("LOAD_CONST", 58) OPCODES /\
  -65536 <= 65536 <= 131071 /\
  Tests.round_trip "LOAD_CONST" 65536 = Ok (Command "LOAD_CONST" 58 (-65536)) /\
  Tests.round_trip "LOAD_CONST" 65536 <> Ok (Command "LOAD_CONST" 58 65536).
Proof.
  split; [by left |]. split; [lia |].
  assert (H : Tests.round_trip "LOAD_CONST" 65536 =
              Ok (Command "LOAD_CONST" 58 (-65536))) by (vm_compute; reflexivity).
  split; [exact H |]. rewrite H. discriminate.
Qed.

(** C1 (amended): for every operation of [OPCODES] and every operand in
    [-65536, 65535] for [LOAD_CONST] and in [0, 0x7FFFFFFF] for the three
    others, validating, folding and encoding the instruction and then
    disassembling the five bytes gives back the same operation, its code
    and the same operand; in particular [LOAD_CONST -15] comes back with
    operand -15.  A [LOAD_CONST] operand in [65536, 131071] is accepted too
    and comes back as the operand minus 131072. *)
Theorem round_trip_exact :
  (forall (name : string) (code z : Z),
      In (name, code) OPCODES ->
      (name = "LOAD_CONST" -> -65536 <= z <= 65535) ->
      (name <> "LOAD_CONST" -> 0 <= z <= 0x7FFFFFFF) ->
      Tests.round_trip name z = Ok (Command name code z)) /\
  Tests.round_trip "LOAD_CONST" (-15) = Ok (Command "LOAD_CONST" 58 (-15)) /\
  (forall z : Z,
      65536 <= z <= 131071 ->
      Tests.round_trip "LOAD_CONST" z = Ok (Command "LOAD_CONST" 58 (z - 131072))).
Proof.
  split; [| split].
  - intros name code z Hin Hconst Haddr.
    destruct (String.eqb_spec name "LOAD_CONST") as [-> | Hne].
    + specialize (Hconst eq_refl).
      assert (code = 58) as ->.
      { simpl in Hin. by destruct Hin as [[= <-] | [[=] | [[=] | [[=] | []]]]]. }
      rewrite round_trip_LOAD_CONST by lia.
      destruct (Z.ltb_spec z 65536); [done | lia].
    + apply round_trip_address; auto.
  - rewrite round_trip_LOAD_CONST by lia. done.
  - intros z Hz. rewrite round_trip_LOAD_CONST by lia.
    destruct (Z.ltb_spec z 65536); [lia | done].
Qed.

Lemma round_trip_exact_witness :
  Tests.round_trip "STORE_MEM" 791 = Ok (Command "STORE_MEM" 24 791) /\
  Tests.round_trip "LOAD_CONST" (-65536) = Ok (Command "LOAD_CONST" 58 (-65536)) /\
  Tests.round_trip "LOAD_CONST" 131071 = Ok (Command "LOAD_CONST" 58 (-1)).
Proof.
  split; [| split].
  - apply (proj1 round_trip_exact "STORE_MEM" 24 791).
    + right; right; left; reflexivity.
    + discriminate.
    + lia.
  - apply (proj1 round_trip_exact "LOAD_CONST" 58 (-65536)).
    + left; reflexivity.
    + lia.
    + intros H; exfalso; apply H; reflexivity.
  - apply (proj2 (proj2 round_trip_exact) 131071). lia.
Defined.

(** C3: the bytes of the four test cases of [run_tests]:
    [LOAD_CONST 308] is [3A 4D 00 00 00], [LOAD_MEM 705] is
    [53 B0 00 00 00], [STORE_MEM 791] is [D8 C5 00 00 00] and [ABS 870] is
    [87 D9 00 00 00]. *)
Theorem literal_encodings :
  assemble [instruction "LOAD_CONST" 308] = Ok [x3a; x4d; x00; x00; x00] /\
  assemble [instruction "LOAD_MEM" 705] = Ok [x53; xb0; x00; x00; x00] /\
  assemble [instruction "STORE_MEM" 791] = Ok [xd8; xc5; x00; x00; x00] /\
  assemble [instruction "ABS" 870] = Ok [x87; xd9; x00; x00; x00].
Proof. repeat split; vm_compute; reflexivity. Qed.

(** C4: the operand rules of [parse_program].  A [LOAD_CONST] operand in
    [-65536, 131071] is accepted, a negative one being replaced by the
    operand plus 131072, and any other is rejected with the range error;
    so 131071 and -65536 are accepted, 131072 and -65537 rejected.  For
    [LOAD_MEM], [STORE_MEM] and [ABS] an operand in [0, 0x7FFFFFFF] is
    accepted unchanged, a negative one and one above 0x7FFFFFFF are
    rejected; so 0x7FFFFFFF is accepted, -1 and 0x80000000 rejected. *)
Theorem operand_rules :
  (forall z : Z,
      -65536 <= z <= 131071 ->
      parse_program [instruction "LOAD_CONST" z] =
      Ok [Command "LOAD_CONST" 58 (if z <? 0 then z + 131072 else z)]) /\
  (forall z : Z,
      z < -65536 \/ 131071 < z ->
      parse_program [instruction "LOAD_CONST" z] =
      Raise (ValueError (ConstantOutOfRange z))) /\
  (forall (name : string) (code z : Z),
      In (name, code) OPCODES -> name <> "LOAD_CONST" ->
      (0 <= z <= 0x7FFFFFFF ->
       parse_program [instruction name z] = Ok [Command name code z]) /\
      (z < 0 ->
       parse_program [instruction name z] =
       Raise (ValueError AddressNotNonNegative)) /\
      (0x7FFFFFFF < z ->
       parse_program [instruction name z] =
       Raise (ValueError (AddressTooLarge z)))).
Proof.
  split; [| split].
  - intros z Hz. apply parse_program_single. rewrite parse_command_LOAD_CONST.
    destruct (Z.ltb_spec z (-65536)); [lia |].
    destruct (Z.gtb_spec z 131071); [lia |].
    cbn [orb]. do 2 f_equal. destruct (z <? 0); lia.
  - intros z Hz. apply parse_program_single_ValueError.
    rewrite parse_command_LOAD_CONST.
    destruct (Z.ltb_spec z (-65536)); [done |].
    destruct (Z.gtb_spec z 131071); [done | lia].
  - intros name code z Hin Hne. split; [| split]; intros Hz.
    + apply parse_program_single. rewrite (parse_command_address _ code) by done.
      destruct (Z.ltb_spec z 0); [lia |].
      destruct (Z.gtb_spec z 0x7FFFFFFF); [lia | done].
    + apply parse_program_single_ValueError.
      rewrite (parse_command_address _ code) by done.
      destruct (Z.ltb_spec z 0); [done | lia].
    + apply parse_program_single_ValueError.
      rewrite (parse_command_address _ code) by done.
      destruct (Z.ltb_spec z 0); [lia |].
      destruct (Z.gtb_spec z 0x7FFFFFFF); [done | lia].
Qed.

Lemma operand_rules_witness :
  (parse_program [instruction "LOAD_CONST" 131071] =
     Ok [Command "LOAD_CONST" 58 131071] /\
   parse_program [instruction "LOAD_CONST" (-65536)] =
     Ok [Command "LOAD_CONST" 58 65536] /\
   parse_program [instruction "LOAD_CONST" 131072] =
     Raise (ValueError (ConstantOutOfRange 131072)) /\
   parse_program [instruction "LOAD_CONST" (-65537)] =
     Raise (ValueError (ConstantOutOfRange (-65537)))) /\
  (parse_program [instruction "LOAD_MEM" 0x7FFFFFFF] =
     Ok [Command "LOAD_MEM" 19 0x7FFFFFFF] /\
   parse_program [instruction "STORE_MEM" (-1)] =
     Raise (ValueError AddressNotNonNegative) /\
   parse_program [instruction "ABS" 0x80000000] =
     Raise (ValueError (AddressTooLarge 0x80000000))).
Proof.
  split; [split; [| split; [| split]] | split; [| split]].
  - apply (proj1 operand_rules 131071). lia.
  - apply (proj1 operand_rules (-65536)). lia.
  - apply (proj1 (proj2 operand_rules) 131072). right. lia.
  - apply (proj1 (proj2 operand_rules) (-65537)). left. lia.
  - apply (proj2 (proj2 operand_rules) "LOAD_MEM" 19 0x7FFFFFFF).
    + right; left; reflexivity.
    + discriminate.
    + lia.
  - apply (proj2 (proj2 operand_rules) "STORE_MEM" 24 (-1)).
    + right; right; left; reflexivity.
    + discriminate.
    + lia.
  - apply (proj2 (proj2 operand_rules) "ABS" 7 0x80000000).
    + right; right; right; left; reflexivity.
    + discriminate.
    + lia.
Defined.

(** ** The step function: [execute_step] *)


Section Step.


Lemma decode_command_nonneg (command opcode operand : Z) :
  decode_command command = Ok (opcode, operand) -> 0 <= operand.
Proof.
  unfold decode_command, Bytes.to_bytes_little.
  destruct ((0 <=? command) && (command <? 256 ^ Z.of_nat 5)); [| done].
  cbn [mbind result_bind rbind Bytes.little Bytes.unpack_BI].
  intros [= _ <-].
  apply Z.lor_nonneg. split.
  - apply Z.shiftl_nonneg.
    apply (from_bytes_little_range [_; _; _; _]).
  - apply Z.land_nonneg. right. lia.
Qed.

(** What [execute_step] does once it dispatches: the body of the [try],
    then either the increment of [pc] or the handler. *)
Lemma execute_step_dispatch (self : machine) (opcode operand : Z) :
  dispatches self opcode operand ->
  execute_step self =
  let n := len (memory self) in
  if opcode =? 58 then
    ({| memory := memory self;
        accumulator := if negb (Z.land operand 0x10000 =? 0)
                       then operand - Z.shiftl 1 17 else operand;
        pc := pc self + 1; halted := false |}, Ok true)
  else if opcode =? 19 then
    if operand >=? n then
      ({| memory := memory self; accumulator := accumulator self;
          pc := pc self; halted := true |}, Ok false)
    else
      ({| memory := memory self;
          accumulator := default 0 (memory self !! Z.to_nat operand);
          pc := pc self + 1; halted := false |}, Ok true)
  else if opcode =? 24 then
    if operand >=? n then
      ({| memory := memory self; accumulator := accumulator self;
          pc := pc self; halted := true |}, Ok false)
    else
      ({| memory := <[Z.to_nat operand := accumulator self]> (memory self);
          accumulator := accumulator self;
          pc := pc self + 1; halted := false |}, Ok true)
  else if opcode =? 7 then
    if operand >=? n then
      ({| memory := memory self; accumulator := Z.abs (accumulator self);
          pc := pc self; halted := true |}, Ok false)
    else
      ({| memory := <[Z.to_nat operand := Z.abs (accumulator self)]> (memory self);
          accumulator := Z.abs (accumulator self);
          pc := pc self + 1; halted := false |}, Ok true)
  else
    ({| memory := memory self; accumulator := accumulator self;
        pc := pc self; halted := true |}, Ok false).
Proof.
  destruct self as [m a p h].
  intros (Hh & Hpc & command & Hget & Hnz & Hdec). cbn in Hh, Hpc, Hget.
  subst h. pose proof (decode_command_nonneg _ _ _ Hdec) as Hop.
  exec_unfold. cbn [orb].
  destruct (Z.geb_spec p (len m)); [lia |].
  rewrite Hget. destruct (Z.eqb_spec command 0); [done |].
  rewrite Hdec. cbv zeta.
  destruct (opcode =? 58); [done |].
  assert (Hpos : forall A (l : list A),
             operand < len l -> PyList.position (length l) operand = Some (Z.to_nat operand)).
  { intros A l Hlt. unfold PyList.position, len in *.
    destruct (Z.leb_spec 0 operand); [| lia].
    destruct (Z.ltb_spec operand (Z.of_nat (length l))); [done | lia]. }
  destruct (opcode =? 19).
  { destruct (Z.geb_spec operand (len m)); [done |].
    unfold PyList.getitem. rewrite Hpos by lia.
    destruct (lookup_lt_is_Some_2 m (Z.to_nat operand)) as [v Hv].
    { unfold len in *. lia. }
    rewrite Hv. done. }
  destruct (opcode =? 24).
  { destruct (Z.geb_spec operand (len m)); [done |].
    unfold PyList.setitem. rewrite Hpos by lia. done. }
  destruct (opcode =? 7); [| done].
  destruct (Z.geb_spec operand (len m)); [done |].
  unfold PyList.setitem. rewrite Hpos by lia. done.
Qed.

(** A word that does not fit five bytes, here a negative one stored by
    [STORE_MEM], makes [decode_command] raise outside the [try]: the
    exception leaves [execute_step] and [halted] is not set. *)
Lemma execute_step_negative_word :
  execute_step (Machine [8388218; 152; -7] (-7) 2 false) =
  (Machine [8388218; 152; -7] (-7) 2 false, Raise OverflowError).
Proof. reflexivity. Qed.

End Step.

(** ** The loader: [load_program] *)

Section Load.


Lemma length_loaded_memory n binary_data j :
  length (loaded_memory n binary_data j) = n.
Proof. unfold loaded_memory. by rewrite length_fmap, length_seq. Qed.

Lemma lookup_loaded_memory n binary_data j i :
  (i < n)%nat ->
  loaded_memory n binary_data j !! i =
  Some (if (i <? j)%nat then instruction_word binary_data i else 0).
Proof.
  intros Hi. unfold loaded_memory.
  by rewrite list_lookup_fmap, lookup_seq_lt.
Qed.

Lemma loaded_memory_0 n binary_data :
  loaded_memory n binary_data 0 = replicate n 0.
Proof.
  apply list_eq. intros i.
  destruct (decide (i < n)%nat) as [Hi | Hi].
  - by rewrite lookup_loaded_memory, lookup_replicate_2.
  - rewrite !lookup_ge_None_2; [done | |].
    + rewrite length_replicate. lia.
    + rewrite length_loaded_memory. lia.
Qed.

Lemma loaded_memory_S n binary_data j :
  loaded_memory n binary_data (S j) =
  <[j := instruction_word binary_data j]> (loaded_memory n binary_data j).
Proof.
  apply list_eq. intros i.
  destruct (decide (i < n)%nat) as [Hi | Hi].
  - rewrite list_lookup_insert, length_loaded_memory, !lookup_loaded_memory by done.
    destruct (decide (j = i ∧ (j < n)%nat)) as [[-> _] | Hne].
    + destruct (Nat.ltb_spec i (S i)); [done | lia].
    + destruct (Nat.ltb_spec i (S j)), (Nat.ltb_spec i j); try done; lia.
  - rewrite !lookup_ge_None_2; [done | |].
    + rewrite length_insert, length_loaded_memory. lia.
    + rewrite length_loaded_memory. lia.
Qed.

Lemma for_in_app {A} (xs ys : list A) (body : A -> exec unit) (self : machine) :
  for_in (xs ++ ys) body self =
  match for_in xs body self with
  | (self', Ok _) => for_in ys body self'
  | (self', Raise e) => (self', Raise e)
  end.
Proof.
  revert self. induction xs as [|x xs IH]; intros self; [done |].
  cbn [app for_in]. unfold mbind, exec_bind.
  destruct (body x self) as [self' [[]|e]]; [| done].
  by rewrite IH.
Qed.

(** The loop of [load_program], after [j] rounds on a zeroed memory. *)
Lemma load_loop (binary_data : list byte) (n j : nat) :
  for_in ((fun k => 0 + Z.of_nat k * 5) <$> seq 0 j) (load_word binary_data)
    (Machine (replicate n 0) 0 0 false) =
  (Machine (loaded_memory n binary_data j) 0 0 false, Ok tt).
Proof.
  induction j as [|j IH].
  - cbn. by rewrite loaded_memory_0.
  - rewrite seq_S, fmap_app, for_in_app, IH. cbn [fmap list_fmap for_in plus].
    unfold load_word. exec_unfold. unfold len.
    rewrite length_loaded_memory.
    replace ((0 + Z.of_nat j * 5) / 5) with (Z.of_nat j)
      by (rewrite Z.add_0_l; symmetry; apply Z.div_mul; lia).
    destruct (Z.ltb_spec (Z.of_nat j) (Z.of_nat n)) as [Hlt | Hge].
    + unfold PyList.setitem, PyList.position. rewrite length_loaded_memory.
      destruct (Z.leb_spec 0 (Z.of_nat j)); [| lia].
      destruct (Z.ltb_spec (Z.of_nat j) (Z.of_nat n)); [| lia].
      cbn [andb]. rewrite Nat2Z.id, loaded_memory_S.
      unfold instruction_word.
      replace (Z.to_nat (0 + Z.of_nat j * 5)) with (5 * j)%nat by lia.
      replace (Z.to_nat (0 + Z.of_nat j * 5 + 5)) with (5 * j + 5)%nat by lia.
      done.
    + rewrite loaded_memory_S, list_insert_ge; [done |].
      rewrite length_loaded_memory. lia.
Qed.

Lemma load_program_bad_size (binary_data : list byte) (self : machine) :
  (length binary_data mod 5 <> 0)%nat ->
  load_program binary_data self = (self, Raise (ValueError BadProgramSize)).
Proof.
  intros Hmod. unfold load_program, len.
  destruct (Z.eqb_spec (Z.of_nat (length binary_data) mod 5) 0) as [Heq | Hne]; [| done].
  exfalso. apply Hmod. apply Nat2Z.inj. rewrite Nat2Z.inj_mod. exact Heq.
Qed.

Lemma load_program_loaded (binary_data : list byte) (self : machine) :
  (length binary_data mod 5 = 0)%nat ->
  load_program binary_data self =
  (Machine (loaded_memory (length (memory self)) binary_data
              (length binary_data / 5)) 0 0 false, Ok tt).
Proof.
  intros Hmod. unfold load_program, len.
  assert (HmodZ : Z.of_nat (length binary_data) mod 5 = 0).
  { change 5 with (Z.of_nat 5). rewrite <- Nat2Z.inj_mod, Hmod. done. }
  rewrite HmodZ. cbn [Z.eqb negb].
  unfold range.
  replace (Z.to_nat ((Z.of_nat (length binary_data) - 0 + 5 - 1) / 5))
    with (length binary_data / 5)%nat.
  2: { apply Nat2Z.inj. rewrite Nat2Z.inj_div. change (Z.of_nat 5) with 5.
       rewrite Z2Nat.id by (apply Z.div_pos; lia).
       pose proof (Z.div_mod (Z.of_nat (length binary_data)) 5 ltac:(lia)).
       pose proof (Z.div_mod (Z.of_nat (length binary_data) - 0 + 5 - 1) 5 ltac:(lia)).
       pose proof (Z.mod_pos_bound (Z.of_nat (length binary_data) - 0 + 5 - 1) 5 eq_refl).
       lia. }
  destruct self as [m a p h]. exec_unfold.
  apply load_loop.
Qed.

End Load.

(** ** End of program, failures and the [halted] flag *)

(** C2, as the spec states it, fails: at the end of a program
    [execute_step] returns [False] and leaves [halted] as it was.  First on
    a fresh machine, whose word at the program counter is zero; then on a
    two-cell machine that ran two instructions, whose program counter
    equals the memory length. *)
Lemma end_of_program_keeps_halted_false :
  (let self := __init__ 4 in
   halted self = false /\
   PyList.getitem (memory self) (pc self) = Ok 0 /\
   execute_step self = (self, Ok false) /\
   halted (fst (execute_step self)) <> true) /\
  (let self := Machine [506; 762] 11 2 false in
   demo 2 [instruction "LOAD_CONST" 7; instruction "LOAD_CONST" 11] 3 =
     Ok (self, Ok (Some 2)) /\
   pc self >= len (memory self) /\
   execute_step self = (self, Ok false) /\
   halted (fst (execute_step self)) <> true).
Proof. vm_compute. repeat split; congruence. Qed.

(** C2 (amended): when the program counter is greater than or equal to the
    memory length, or the word fetched at the program counter is zero,
    [execute_step] executes no instruction and returns [False]; it leaves
    every attribute of the machine unchanged, [halted] included, which it
    does not set. *)
Theorem end_of_program_returns_false (self : machine) :
  pc self >= len (memory self) \/
  PyList.getitem (memory self) (pc self) = Ok 0 ->
  execute_step self = (self, Ok false).
Proof.
  destruct self as [m a p h]. cbn [pc memory]. intros Hend.
  exec_unfold. destruct h; [done |]. cbn [orb].
  destruct (Z.geb_spec p (len m)) as [Hge | Hlt]; [done |].
  destruct Hend as [Hge | Hzero]; [lia |].
  by rewrite Hzero.
Qed.

Lemma end_of_program_returns_false_witness :
  execute_step (Machine [506; 762] 11 2 false) =
    (Machine [506; 762] 11 2 false, Ok false) /\
  execute_step (Machine [506; 0] 7 1 false) =
    (Machine [506; 0] 7 1 false, Ok false).
Proof.
  split.
  - apply (end_of_program_returns_false (Machine [506; 762] 11 2 false)).
    left. vm_compute. discriminate.
  - apply (end_of_program_returns_false (Machine [506; 0] 7 1 false)).
    right. reflexivity.
Defined.

(** C5: when the decoded instruction fails, that is [LOAD_MEM],
    [STORE_MEM] or [ABS] with an operand greater than or equal to the
    memory length, or an operation code outside the four known ones,
    [execute_step] returns [False] with [halted] set and the program
    counter where it was.  No memory cell is written, and unless the
    instruction is [ABS] the accumulator keeps its value; so a failing
    [STORE_MEM] leaves both the accumulator and the memory as they
    were. *)
Theorem failure_halts_in_place (self : machine) (opcode operand : Z) :
  dispatches self opcode operand ->
  (opcode = 19 \/ opcode = 24 \/ opcode = 7) /\ operand >= len (memory self) \/
  (opcode <> 58 /\ opcode <> 19 /\ opcode <> 24 /\ opcode <> 7) ->
  exists self' : machine,
    execute_step self = (self', Ok false) /\
    halted self' = true /\
    pc self' = pc self /\
    memory self' = memory self /\
    (opcode <> 7 -> accumulator self' = accumulator self) /\
    (opcode = 24 ->
     accumulator self' = accumulator self /\ memory self' = memory self).
Proof.
  intros Hdispatch Hfail.
  rewrite (execute_step_dispatch _ _ _ Hdispatch). cbv zeta.
  destruct Hfail as [[Hop Hge] | (H58 & H19 & H24 & H7)].
  - assert (Hb : (operand >=? len (memory self)) = true).
    { destruct (Z.geb_spec operand (len (memory self))); [done | lia]. }
    destruct Hop as [-> | [-> | ->]]; cbn [Z.eqb Pos.eqb]; rewrite Hb;
      (eexists; split; [reflexivity |]); cbn; repeat split; done.
  - destruct (Z.eqb_spec opcode 58); [done |].
    destruct (Z.eqb_spec opcode 19); [done |].
    destruct (Z.eqb_spec opcode 24); [done |].
    destruct (Z.eqb_spec opcode 7); [done |].
    (eexists; split; [reflexivity |]); cbn; repeat split; done.
Qed.

(** [STORE_MEM 50] on a machine of ten cells, after [LOAD_CONST 7]. *)
Lemma failure_halts_in_place_witness :
  exists self' : machine,
    execute_step (Machine [506; 3224; 0; 0; 0; 0; 0; 0; 0; 0] 7 1 false) =
      (self', Ok false) /\
    halted self' = true /\
    pc self' = 1 /\
    memory self' = [506; 3224; 0; 0; 0; 0; 0; 0; 0; 0] /\
    (24 <> 7 -> accumulator self' = 7) /\
    (24 = 24 ->
     accumulator self' = 7 /\ memory self' = [506; 3224; 0; 0; 0; 0; 0; 0; 0; 0]).
Proof.
  apply (failure_halts_in_place
           (Machine [506; 3224; 0; 0; 0; 0; 0; 0; 0; 0] 7 1 false) 24 50).
  - split; [reflexivity |]. split; [reflexivity |].
    exists 3224. split; [reflexivity |]. split; [discriminate | reflexivity].
  - left. split; [right; left; reflexivity | vm_compute; discriminate].
Defined.

(** C8: when [ABS] executes with an operand greater than or equal to the
    memory length, [execute_step] returns [False] with [halted] set, the
    program counter and every memory cell as they were, and the
    accumulator replaced by its absolute value: the assignment made before
    the bounds check stays. *)
Theorem failing_ABS_keeps_absolute_value (self : machine) (operand : Z) :
  dispatches self 7 operand ->
  operand >= len (memory self) ->
  execute_step self =
  ({| memory := memory self;
      accumulator := Z.abs (accumulator self);
      pc := pc self;
      halted := true |}, Ok false).
Proof.
  intros Hdispatch Hge.
  rewrite (execute_step_dispatch _ _ _ Hdispatch). cbv zeta. cbn [Z.eqb Pos.eqb].
  destruct (Z.geb_spec operand (len (memory self))); [done | lia].
Qed.

(** [ABS 50] on a machine of ten cells, after [LOAD_CONST -7]. *)
Lemma failing_ABS_keeps_absolute_value_witness :
  demo 10 [instruction "LOAD_CONST" (-7); instruction "ABS" 50] 1 =
    Ok (Machine [8388218; 3207; 0; 0; 0; 0; 0; 0; 0; 0] (-7) 1 false, Ok None) /\
  execute_step (Machine [8388218; 3207; 0; 0; 0; 0; 0; 0; 0; 0] (-7) 1 false) =
    (Machine [8388218; 3207; 0; 0; 0; 0; 0; 0; 0; 0] 7 1 true, Ok false).
Proof.
  split; [reflexivity |].
  apply (failing_ABS_keeps_absolute_value
           (Machine [8388218; 3207; 0; 0; 0; 0; 0; 0; 0; 0] (-7) 1 false) 50).
  - split; [reflexivity |]. split; [reflexivity |].
    exists 3207. split; [reflexivity |]. split; [discriminate | reflexivity].
  - vm_compute. discriminate.
Defined.

(** C9: [execute_step] on a halted machine returns [False] and changes
    nothing, so [halted] stays set, after one call and after any number of
    calls; [load_program], when it returns, has cleared it. *)
Theorem halted_is_kept (self : machine) :
  halted self = true ->
  execute_step self = (self, Ok false) /\
  halted (fst (execute_step self)) = true /\
  (forall fuel : nat, halted (fst (run fuel self)) = true) /\
  (forall (binary_data : list byte) (self' : machine),
      load_program binary_data self = (self', Ok tt) -> halted self' = false).
Proof.
  intros Hh.
  assert (Hstep : execute_step self = (self, Ok false)).
  { destruct self as [m a p h]. cbn in Hh. subst h. reflexivity. }
  split; [done |]. split; [by rewrite Hstep |]. split.
  - intros [|fuel]; [done |]. cbn [run]. unfold mbind, exec_bind.
    rewrite Hstep. done.
  - intros binary_data self' Hload.
    destruct (decide (length binary_data mod 5 = 0)%nat) as [Hmod | Hmod].
    + rewrite load_program_loaded in Hload by done. by injection Hload as <-.
    + rewrite load_program_bad_size in Hload by done. discriminate.
Qed.

(** A machine halted by [STORE_MEM 50], stepped again and then reloaded. *)
Lemma halted_is_kept_witness :
  execute_step (Machine [506; 3224; 0; 0; 0; 0; 0; 0; 0; 0] 7 1 true) =
    (Machine [506; 3224; 0; 0; 0; 0; 0; 0; 0; 0] 7 1 true, Ok false) /\
  halted (fst (load_program [xfa; x01; x00; x00; x00]
                 (Machine [506; 3224; 0; 0; 0; 0; 0; 0; 0; 0] 7 1 true))) = false.
Proof.
  destruct (halted_is_kept (Machine [506; 3224; 0; 0; 0; 0; 0; 0; 0; 0] 7 1 true))
    as (Hstep & _ & _ & Hload); [reflexivity |].
  split; [exact Hstep |].
  apply (Hload [xfa; x01; x00; x00; x00]). reflexivity.
Defined.

(** ** Loading a program *)

(** C6: [load_program] is all or nothing.  On a length that is not a
    multiple of 5 it raises and leaves the memory, the accumulator, the
    program counter and [halted] as they were.  Otherwise it returns with
    the accumulator and the program counter at zero, [halted] false and a
    memory of the same length in which cell [i] holds instruction word
    [i], the little-endian integer of bytes [5i, 5i+5), for each [i] below
    the number of instructions, and zero elsewhere. *)
Theorem load_program_all_or_nothing (binary_data : list byte) (self : machine) :
  ((length binary_data mod 5 <> 0)%nat ->
   load_program binary_data self = (self, Raise (ValueError BadProgramSize))) /\
  ((length binary_data mod 5 = 0)%nat ->
   exists self' : machine,
     load_program binary_data self = (self', Ok tt) /\
     accumulator self' = 0 /\
     pc self' = 0 /\
     halted self' = false /\
     length (memory self') = length (memory self) /\
     forall i : nat,
       (i < length (memory self))%nat ->
       memory self' !! i =
       Some (if (i <? length binary_data / 5)%nat
             then Bytes.from_bytes_little
                    (Bytes.slice binary_data (5 * i) (5 * i + 5))
             else 0)).
Proof.
  split; intros Hmod.
  - by apply load_program_bad_size.
  - eexists. split; [by apply load_program_loaded |].
    cbn [accumulator pc halted memory].
    split; [done |]. split; [done |]. split; [done |].
    split; [apply length_loaded_memory |].
    intros i Hi. by rewrite lookup_loaded_memory.
Qed.

Lemma load_program_all_or_nothing_witness :
  load_program [xfa; x01; x00; x00] (Machine [506; 3224; 0] 7 1 true) =
    (Machine [506; 3224; 0] 7 1 true, Raise (ValueError BadProgramSize)) /\
  exists self' : machine,
    load_program [xba; x0a; x00; x00; x00; x98; x0c; x00; x00; x00]
      (Machine [506; 3224; 0] 7 1 true) = (self', Ok tt) /\
    memory self' !! 1%nat = Some 3224 /\
    memory self' !! 2%nat = Some 0.
Proof.
  split.
  - apply (proj1 (load_program_all_or_nothing [xfa; x01; x00; x00]
                    (Machine [506; 3224; 0] 7 1 true))).
    vm_compute. discriminate.
  - destruct (proj2 (load_program_all_or_nothing
                       [xba; x0a; x00; x00; x00; x98; x0c; x00; x00; x00]
                       (Machine [506; 3224; 0] 7 1 true)))
      as (self' & Hload & _ & _ & _ & _ & Hcells); [reflexivity |].
    exists self'. split; [exact Hload |]. split.
    + apply (Hcells 1%nat). vm_compute. lia.
    + apply (Hcells 2%nat). vm_compute. lia.
Defined.

(** C10: a program of more instructions than the machine has memory cells
    (its length still a multiple of 5) loads without an error, and the
    memory then holds the first [N] instruction words, [N] being the
    memory length: the words from [N] on are in no cell. *)
Theorem load_program_drops_excess (binary_data : list byte) (self : machine) :
  (length binary_data mod 5 = 0)%nat ->
  (length (memory self) < length binary_data / 5)%nat ->
  exists self' : machine,
    load_program binary_data self = (self', Ok tt) /\
    memory self' =
      (fun i => Bytes.from_bytes_little
                  (Bytes.slice binary_data (5 * i) (5 * i + 5)))
        <$> seq 0 (length (memory self)).
Proof.
  intros Hmod Hlong. eexists. split; [by apply load_program_loaded |].
  cbn [memory]. unfold loaded_memory.
  apply list_eq. intros i. rewrite !list_lookup_fmap.
  destruct (seq 0 (length (memory self)) !! i) as [k|] eqn:Hk; [| done].
  apply lookup_seq in Hk as [-> Hi]. cbn [fmap option_fmap option_map plus].
  destruct (Nat.ltb_spec i (length binary_data / 5)); [done | lia].
Qed.

(** Three instructions loaded into two cells. *)
Lemma load_program_drops_excess_witness :
  exists self' : machine,
    load_program
      [xba; x0a; x00; x00; x00; x98; x0c; x00; x00; x00; xfa; x01; x00; x00; x00]
      (__init__ 2) = (self', Ok tt) /\
    memory self' = [2746; 3224].
Proof.
  apply (load_program_drops_excess
           [xba; x0a; x00; x00; x00; x98; x0c; x00; x00; x00; xfa; x01; x00; x00; x00]
           (__init__ 2)).
  - reflexivity.
  - vm_compute. lia.
Defined.

(** ** The demonstration program *)

Section DemoLoop.

(** Once the loop has ended within [fuel] calls, more fuel changes
    nothing. *)
Lemma stepping_more_fuel (fuel fuel' : nat) (step k : Z) (self self' : machine) :
  stepping fuel step self = (self', Ok (Some k)) ->
  (fuel <= fuel')%nat ->
  stepping fuel' step self = (self', Ok (Some k)).
Proof.
  revert fuel' step self.
  induction fuel as [|fuel IH]; intros fuel' step self Hrun Hle; [done |].
  destruct fuel' as [|fuel']; [lia |].
  cbn [stepping] in *. unfold mbind, exec_bind in *.
  destruct (execute_step self) as [self1 [[|]|e]]; [| done | done].
  apply IH; [done | lia].
Qed.

Lemma demo_more_fuel (memory_size : Z) (commands : list (gmap string json))
    (fuel fuel' : nat) (k : Z) (self : machine) :
  demo memory_size commands fuel = Ok (self, Ok (Some k)) ->
  (fuel <= fuel')%nat ->
  demo memory_size commands fuel' = Ok (self, Ok (Some k)).
Proof.
  unfold demo. destruct (assemble commands) as [binary_data|e]; [| done].
  cbn [mbind result_bind rbind]. unfold mbind, exec_bind.
  destruct (load_program binary_data (__init__ memory_size)) as [self0 [[]|e]];
    [| done].
  intros [= Hrun] Hle. f_equal. by apply (stepping_more_fuel fuel).
Qed.

End DemoLoop.

(** C7: assembled and loaded into a machine of 1024 cells, the program
    [LOAD_CONST 42; STORE_MEM 100; LOAD_CONST 15; ABS 101; LOAD_MEM 100]
    makes [execute_step] return [True] five times and then [False],
    whatever the number of calls allowed from six on; the accumulator is
    then 42, cell 100 holds 42, cell 101 holds 15 and [halted] is
    false. *)
Theorem demo_basic_runs_five_steps (fuel : nat) :
  (6 <= fuel)%nat ->
  exists self : machine,
    demo 1024 test_program fuel = Ok (self, Ok (Some 5)) /\
    accumulator self = 42 /\
    get_memory_cell 100 self = (self, Ok (Some 42)) /\
    get_memory_cell 101 self = (self, Ok (Some 15)) /\
    halted self = false /\
    pc self = 5.
Proof.
  intros Hfuel. eexists. split.
  - apply (demo_more_fuel _ _ 6); [| done].
    vm_compute. reflexivity.
  - repeat split; vm_compute; reflexivity.
Qed.

Lemma demo_basic_runs_five_steps_witness :
  exists self : machine,
    demo 1024 test_program 2048 = Ok (self, Ok (Some 5)) /\
    accumulator self = 42 /\
    get_memory_cell 100 self = (self, Ok (Some 42)) /\
    get_memory_cell 101 self = (self, Ok (Some 15)) /\
    halted self = false /\
    pc self = 5.
Proof. apply (demo_basic_runs_five_steps 2048). lia. Defined.

(** * Further properties of the assembler and of the interpreter *)

(** ** Integers as bit fields *)

Section Fields.

(** A field of [n] low bits below a shifted rest is a sum. *)
Lemma lor_shiftl_add (hi lo n : Z) :
  0 <= n -> 0 <= lo < 2 ^ n ->
  Z.lor (Z.shiftl hi n) lo = hi * 2 ^ n + lo.
Proof.
  intros Hn Hlo. set (x := hi * 2 ^ n + lo).
  assert (Hhi : Z.shiftr x n = hi).
  { rewrite Z.shiftr_div_pow2 by done. unfold x.
    rewrite Z.div_add_l by lia. rewrite Z.div_small by done. lia. }
  assert (Hlow : Z.land x (Z.ones n) = lo).
  { rewrite Z.land_ones by done. unfold x.
    rewrite Z.add_comm, Z.mod_add by lia. by apply Z.mod_small. }
  rewrite <- Hhi at 1. rewrite <- Hlow at 1.
  apply Z.bits_inj'. intros k Hk.
  rewrite Z.lor_spec, Z.land_spec, Z.testbit_ones_nonneg by done.
  destruct (Z.ltb_spec k n).
  - rewrite Z.shiftl_spec_low by done. by rewrite andb_true_r.
  - rewrite Z.shiftl_spec, Z.shiftr_spec by lia.
    replace (k - n + n) with k by lia. by rewrite andb_false_r, orb_false_r.
Qed.

Lemma byte0_sum (opcode low : Z) :
  0 <= opcode < 64 ->
  Z.lor opcode (Z.shiftl low 6) = opcode + 64 * low.
Proof.
  intros Hop. rewrite Z.lor_comm, (lor_shiftl_add low opcode 6) by lia.
  change (2 ^ 6) with 64. lia.
Qed.

(** The word of a command whose code fits six bits: the code, then the
    operand from bit 6 on. *)
Lemma assemble_command_word (cmd : command) (bs : list byte) :
  0 <= opcode_num cmd < 64 ->
  0 <= operand cmd <= 0x1FFFF \/
  opcode cmd <> "LOAD_CONST" /\ 0 <= operand cmd ->
  assemble_command cmd = Ok bs ->
  Bytes.from_bytes_little bs = opcode_num cmd + 64 * operand cmd.
Proof.
  destruct cmd as [name code z]. cbn [opcode opcode_num operand].
  intros Hcode Hz.
  assert (Hasm : assemble_command (Command name code z) =
                 Bytes.pack_BI (Z.lor code (Z.shiftl (Z.land z 0x3) 6))
                   (Z.shiftr z 2)).
  { unfold assemble_command. cbn [opcode opcode_num operand].
    destruct (String.eqb_spec name "LOAD_CONST") as [-> | Hne]; [| done].
    destruct (Z.gtb_spec z 0x1FFFF); [| done].
    destruct Hz as [Hz | [Hne _]]; [lia | done]. }
  rewrite Hasm. intros Hpack.
  destruct (unpack_pack_BI _ _ _ Hpack) as [Hlen Hunpack].
  destruct bs as [|b0 [|b1 [|b2 [|b3 [|b4 [|]]]]]]; try done.
  cbn [Bytes.unpack_BI] in Hunpack. injection Hunpack as Hb0 Hrest.
  cbn [Bytes.from_bytes_little] in Hrest |- *.
  rewrite Hb0, Hrest, byte0_sum, land_3, Z.shiftr_div_pow2 by lia.
  change (2 ^ 2) with 4. Z.div_mod_to_equations. lia.
Qed.

(** [decode_command] reads the code in the six low bits and the operand
    above them; it raises on a word that does not fit five bytes. *)
Lemma decode_command_fields (command : Z) :
  decode_command command =
  if (0 <=? command) && (command <? 2 ^ 40)
  then Ok (command mod 64, command / 64)
  else Raise OverflowError.
Proof.
  unfold decode_command, Bytes.to_bytes_little.
  change (256 ^ Z.of_nat 5) with (2 ^ 40).
  destruct (Z.leb_spec 0 command) as [Hlo |]; [| done].
  destruct (Z.ltb_spec command (2 ^ 40)) as [Hhi |]; [| done].
  cbn [andb mbind result_bind rbind].
  transitivity
    (Ok (A := Z * Z)
       (Z.land (Bytes.to_Z (Bytes.of_Z command)) 0x3F,
        Z.lor (Z.shiftl (Bytes.from_bytes_little
                           (Bytes.little 4 (command / 256))) 2)
              (Z.land (Z.shiftr (Bytes.to_Z (Bytes.of_Z command)) 6) 0x3)));
    [done |].
  rewrite to_Z_of_Z, from_bytes_little_little.
  2: { change (256 ^ Z.of_nat 4) with 4294967296. change (2 ^ 40) with 1099511627776 in Hhi.
       Z.div_mod_to_equations. lia. }
  change 0x3F with (Z.ones 6). change 0x3 with (Z.ones 2).
  rewrite !Z.land_ones, Z.shiftr_div_pow2 by lia.
  change (2 ^ 6) with 64. change (2 ^ 2) with 4.
  rewrite (lor_shiftl_add _ _ 2) by (change (2 ^ 2) with 4; Z.div_mod_to_equations; lia).
  change (2 ^ 2) with 4. do 2 f_equal; Z.div_mod_to_equations; lia.
Qed.

End Fields.

(** ** Programs through [parse_program] *)

Section Programs.

Lemma OPCODES_get_Some (name : string) (code : Z) :
  OPCODES_get name = Some code <-> In (name, code) OPCODES.
Proof.
  unfold OPCODES_get, OPCODES. cbn [List.find fst snd In]. split.
  - destruct (String.eqb_spec "LOAD_CONST" name) as [<- | ?];
      [cbn; intros [= <-]; tauto |].
    destruct (String.eqb_spec "LOAD_MEM" name) as [<- | ?];
      [cbn; intros [= <-]; tauto |].
    destruct (String.eqb_spec "STORE_MEM" name) as [<- | ?];
      [cbn; intros [= <-]; tauto |].
    destruct (String.eqb_spec "ABS" name) as [<- | ?];
      [cbn; intros [= <-]; tauto | done].
  - intros [[= <- <-] | [[= <- <-] | [[= <- <-] | [[= <- <-] | []]]]]; done.
Qed.

Lemma OPCODES_get_None (name : string) :
  (forall code, ~ In (name, code) OPCODES) -> OPCODES_get name = None.
Proof.
  intros Hnot. destruct (OPCODES_get name) as [code|] eqn:Hget; [| done].
  apply OPCODES_get_Some in Hget. by destruct (Hnot code).
Qed.

(** The accumulator of the loop only grows at its end. *)
Lemma parse_loop_acc (internal_repr : list command)
    (commands : list (gmap string json)) :
  parse_loop internal_repr commands =
  entries ← parse_loop [] commands; Ok (internal_repr ++ entries)%list.
Proof.
  revert internal_repr.
  induction commands as [|cmd commands IH]; intros internal_repr.
  - cbn. by rewrite app_nil_r.
  - cbn [parse_loop]. destruct (parse_command cmd) as [entry|e]; [| done].
    cbn [mbind result_bind rbind]. rewrite (IH (internal_repr ++ [entry])%list).
    rewrite (IH ([] ++ [entry])%list). cbn [mbind result_bind rbind].
    destruct (parse_loop [] commands) as [entries|e]; [| done].
    cbn. by rewrite <- app_assoc.
Qed.

Lemma parse_loop_app (internal_repr : list command)
    (commands1 commands2 : list (gmap string json)) :
  parse_loop internal_repr (commands1 ++ commands2) =
  entries ← parse_loop internal_repr commands1; parse_loop entries commands2.
Proof.
  revert internal_repr.
  induction commands1 as [|cmd commands1 IH]; intros internal_repr; [done |].
  cbn [app parse_loop]. destruct (parse_command cmd) as [entry|e]; [| done].
  cbn [mbind result_bind rbind]. apply IH.
Qed.

Lemma parse_loop_inv (internal_repr : list command)
    (commands : list (gmap string json)) (out : list command) :
  parse_loop internal_repr commands = Ok out ->
  exists entries,
    out = (internal_repr ++ entries)%list /\
    Forall2 (fun cmd entry => parse_command cmd = Ok entry) commands entries.
Proof.
  revert internal_repr.
  induction commands as [|cmd commands IH]; intros internal_repr.
  - intros [= <-]. exists []. by rewrite app_nil_r.
  - cbn [parse_loop]. destruct (parse_command cmd) as [entry|e] eqn:Hcmd; [| done].
    cbn [mbind result_bind rbind]. intros Hloop.
    destruct (IH _ Hloop) as (entries & -> & Hall).
    exists (entry :: entries). split; [by rewrite <- app_assoc |].
    by constructor.
Qed.

Lemma parse_program_inv (commands : list (gmap string json))
    (entries : list command) :
  parse_program commands = Ok entries ->
  Forall2 (fun cmd entry => parse_command cmd = Ok entry) commands entries.
Proof.
  unfold parse_program.
  destruct (parse_loop [] commands) as [out|e] eqn:Hloop.
  - intros [= <-]. by destruct (parse_loop_inv _ _ _ Hloop) as (? & -> & ?).
  - cbn. by destruct e.
Qed.

(** What an accepted instruction looks like, and its entry. *)
Lemma parse_command_inv (cmd : gmap string json) (entry : command) :
  parse_command cmd = Ok entry ->
  In (opcode entry, opcode_num entry) OPCODES /\
  cmd !! "opcode" = Some (JString (opcode entry)) /\
  exists (v : json) (z : Z),
    cmd !! "operand" = Some v /\ as_int v = Some z /\
    (opcode entry = "LOAD_CONST" ->
     -65536 <= z <= 131071 /\
     operand entry = if z <? 0 then 131072 + z else z) /\
    (opcode entry <> "LOAD_CONST" -> 0 <= z <= 0x7FFFFFFF /\ operand entry = z).
Proof.
  unfold parse_command, subscript.
  destruct (cmd !! "opcode") as [op|] eqn:Hop; [| done].
  destruct (cmd !! "operand") as [v|] eqn:Hv; [| done].
  cbn [mbind result_bind rbind].
  destruct op as [| | | |name| |]; try done.
  destruct (OPCODES_get name) as [code|] eqn:Hcode; [| done].
  apply OPCODES_get_Some in Hcode as Hin.
  cbn [mbind result_bind rbind]. rewrite Hcode.
  destruct (String.eqb_spec name "LOAD_CONST") as [-> | Hne].
  - destruct (as_int v) as [z|] eqn:Hint; [| done].
    destruct (Z.ltb_spec z (-65536)); [done |].
    destruct (Z.gtb_spec z 131071); [done |]. cbn [orb].
    destruct (z <? 0) eqn:Hneg; cbn [rbind]; intros [= <-];
      cbn [opcode opcode_num operand];
      (split; [done |]; split; [done |]; exists v, z;
       split; [done |]; split; [done |]; split; [| done]);
      intros _; rewrite Hneg; (split; [lia | reflexivity]).
  - destruct (as_int v) as [z|] eqn:Hint; [| done].
    destruct (Z.ltb_spec z 0); [done |].
    destruct (Z.gtb_spec z 0x7FFFFFFF); [done |].
    cbn [rbind]. intros [= <-]. cbn [opcode opcode_num operand].
    split; [done |]. split; [done |]. exists v, z.
    split; [done |]. split; [done |]. split; [done |].
    intros _. split; [lia | done].
Qed.

End Programs.

Section ProgramFacts.

Lemma parse_program_head_Raise (cmd : gmap string json)
    (rest : list (gmap string json)) (e : exn) :
  parse_command cmd = Raise e ->
  parse_program (cmd :: rest) =
  match e with
  | KeyError key => Raise (ValueError (MissingField key))
  | _ => Raise e
  end.
Proof. intros H. unfold parse_program. cbn [parse_loop]. by rewrite H. Qed.

(** The bounds that validation leaves on an entry. *)
Lemma parse_command_bounds (cmd : gmap string json) (entry : command) :
  parse_command cmd = Ok entry ->
  In (opcode entry, opcode_num entry) OPCODES /\
  0 <= operand entry <= 0x7FFFFFFF /\
  (opcode entry = "LOAD_CONST" -> operand entry <= 0x1FFFF).
Proof.
  intros Hcmd.
  destruct (parse_command_inv _ _ Hcmd)
    as (Hin & _ & v & z & _ & _ & Hconst & Haddr).
  split; [done |].
  destruct (String.eqb_spec (opcode entry) "LOAD_CONST") as [Heq | Hne].
  - destruct (Hconst Heq) as [Hz ->].
    destruct (Z.ltb_spec z 0); split; (lia || (intros _; lia)).
  - destruct (Haddr Hne) as [Hz ->]. split; [lia | done].
Qed.

(** Each validated entry has its five bytes. *)
Lemma validated_chunks (commands : list (gmap string json))
    (entries : list command) :
  Forall2 (fun cmd entry => parse_command cmd = Ok entry) commands entries ->
  exists chunks : list (list byte),
    Forall2 (fun entry bs => assemble_command entry = Ok bs) entries chunks /\
    length (concat chunks) = (5 * length commands)%nat.
Proof.
  induction 1 as [|cmd entry commands entries Hcmd _ (chunks & Hall & Hlen)].
  - exists []. by split; [constructor |].
  - destruct (parse_command_bounds _ _ Hcmd) as (Hin & Hop & Hconst).
    destruct entry as [name code z]. cbn [opcode opcode_num operand] in *.
    destruct (disassemble_assemble_command name code z Hin Hop Hconst)
      as (bs & Hasm & Hbs & _).
    exists (bs :: chunks). split; [by constructor |].
    cbn [concat length]. rewrite length_app, Hlen, Hbs. lia.
Qed.

Lemma assemble_loop_acc (binary_data : list byte) (internal_repr : list command) :
  assemble_loop binary_data internal_repr =
  bs ← assemble_loop [] internal_repr; Ok (binary_data ++ bs)%list.
Proof.
  revert binary_data.
  induction internal_repr as [|cmd internal_repr IH]; intros binary_data.
  - cbn. by rewrite app_nil_r.
  - cbn [assemble_loop]. destruct (assemble_command cmd) as [bs|e]; [| done].
    cbn [mbind result_bind rbind]. rewrite (IH (binary_data ++ bs)%list).
    rewrite (IH ([] ++ bs)%list). cbn [mbind result_bind rbind].
    destruct (assemble_loop [] internal_repr) as [bs'|e]; [| done].
    cbn. by rewrite <- app_assoc.
Qed.

Lemma assemble_loop_app (binary_data : list byte)
    (internal_repr1 internal_repr2 : list command) :
  assemble_loop binary_data (internal_repr1 ++ internal_repr2) =
  bs ← assemble_loop binary_data internal_repr1; assemble_loop bs internal_repr2.
Proof.
  revert binary_data.
  induction internal_repr1 as [|cmd internal_repr1 IH]; intros binary_data; [done |].
  cbn [app assemble_loop]. destruct (assemble_command cmd) as [bs|e]; [| done].
  cbn [mbind result_bind rbind]. apply IH.
Qed.

End ProgramFacts.

(** X1: an instruction whose operation name is none of the four of
    [OPCODES] makes [parse_program] raise the unknown-operation
    [ValueError], whatever its operand and whatever follows it. *)
Theorem unknown_operation_rejected (cmd : gmap string json)
    (rest : list (gmap string json)) (name : string) (v : json) :
  cmd !! "opcode" = Some (JString name) ->
  cmd !! "operand" = Some v ->
  (forall code : Z, ~ In (name, code) OPCODES) ->
  parse_program (cmd :: rest) = Raise (ValueError UnknownOperation).
Proof.
  intros Hop Hv Hnot.
  rewrite (parse_program_head_Raise _ _ (ValueError UnknownOperation)); [done |].
  unfold parse_command, subscript. rewrite Hop, Hv.
  cbn [mbind result_bind rbind]. by rewrite OPCODES_get_None.
Qed.

Lemma unknown_operation_rejected_witness :
  parse_program [instruction "HALT" 0; instruction "ABS" 1] =
  Raise (ValueError UnknownOperation).
Proof.
  apply (unknown_operation_rejected (instruction "HALT" 0)
           [instruction "ABS" 1] "HALT" (JInt 0)).
  - vm_compute. reflexivity.
  - vm_compute. reflexivity.
  - intros code H. simpl in H.
    destruct H as [H | [H | [H | [H | H]]]];
      [discriminate H | discriminate H | discriminate H | discriminate H | exact H].
Defined.

(** X2: an instruction without its ["opcode"] key, or with it but without
    its ["operand"] key, makes [parse_program] raise the missing-field
    [ValueError] that names the key; the operand is looked up before the
    operation name is checked, so this holds for an unknown name too. *)
Theorem missing_field_rejected (cmd : gmap string json)
    (rest : list (gmap string json)) :
  (cmd !! "opcode" = None ->
   parse_program (cmd :: rest) = Raise (ValueError (MissingField "opcode"))) /\
  (is_Some (cmd !! "opcode") -> cmd !! "operand" = None ->
   parse_program (cmd :: rest) = Raise (ValueError (MissingField "operand"))).
Proof.
  split.
  - intros Hop. rewrite (parse_program_head_Raise _ _ (KeyError "opcode")); [done |].
    unfold parse_command, subscript. by rewrite Hop.
  - intros [op Hop] Hv.
    rewrite (parse_program_head_Raise _ _ (KeyError "operand")); [done |].
    unfold parse_command, subscript. by rewrite Hop, Hv.
Qed.

Lemma missing_field_rejected_witness :
  parse_program [ {[ "operand" := JInt 5 ]} ] =
    Raise (ValueError (MissingField "opcode")) /\
  parse_program [ {[ "opcode" := JString "NOP" ]} ] =
    Raise (ValueError (MissingField "operand")).
Proof.
  split.
  - apply (proj1 (missing_field_rejected {[ "operand" := JInt 5 ]} [])).
    vm_compute. reflexivity.
  - apply (proj2 (missing_field_rejected {[ "opcode" := JString "NOP" ]} [])).
    + exists (JString "NOP"). vm_compute. reflexivity.
    + vm_compute. reflexivity.
Defined.



(** X4: a program that [parse_program] accepts gives one entry per
    instruction, each with an operation of [OPCODES] and its code, and an
    operand in [0, 0x7FFFFFFF], in [0, 0x1FFFF] for [LOAD_CONST]: no
    negative operand is left after validation. *)
Theorem accepted_program_entries (commands : list (gmap string json))
    (entries : list command) :
  parse_program commands = Ok entries ->
  length entries = length commands /\
  Forall (fun entry =>
            In (opcode entry, opcode_num entry) OPCODES /\
            0 <= operand entry <= 0x7FFFFFFF /\
            (opcode entry = "LOAD_CONST" -> operand entry <= 0x1FFFF))
         entries.
Proof.
  intros Hparse. apply parse_program_inv in Hparse.
  split; [symmetry; by eapply Forall2_length |].
  induction Hparse as [|cmd entry commands entries Hcmd _ IH]; constructor; [| done].
  by apply (parse_command_bounds cmd).
Qed.

Lemma accepted_program_entries_witness :
  length [Command "LOAD_CONST" 58 131057; Command "ABS" 7 3] =
    length [instruction "LOAD_CONST" (-15); instruction "ABS" 3] /\
  Forall (fun entry =>
            In (opcode entry, opcode_num entry) OPCODES /\
            0 <= operand entry <= 0x7FFFFFFF /\
            (opcode entry = "LOAD_CONST" -> operand entry <= 0x1FFFF))
         [Command "LOAD_CONST" 58 131057; Command "ABS" 7 3].
Proof.
  apply (accepted_program_entries
           [instruction "LOAD_CONST" (-15); instruction "ABS" 3]).
  vm_compute. reflexivity.
Defined.

(** X5: [parse_program] goes through a program from left to right: on a
    concatenation it gives the entries of the first part followed by those
    of the second, and raises what the first part raises, else what the
    second part raises. *)
Theorem parse_program_app (commands1 commands2 : list (gmap string json)) :
  parse_program (commands1 ++ commands2) =
  entries1 ← parse_program commands1;
  entries2 ← parse_program commands2;
  Ok (entries1 ++ entries2)%list.
Proof.
  unfold parse_program. rewrite parse_loop_app.
  destruct (parse_loop [] commands1) as [entries1|e].
  - cbn [mbind result_bind rbind rcatch]. rewrite parse_loop_acc.
    destruct (parse_loop [] commands2) as [entries2|e]; [done |].
    by destruct e.
  - by destruct e.
Qed.

(** X6: the entries of an accepted program always assemble, to five bytes
    per instruction. *)
Theorem accepted_program_assembles (commands : list (gmap string json))
    (entries : list command) :
  parse_program commands = Ok entries ->
  exists binary_data : list byte,
    assemble_to_bytes entries = Ok binary_data /\
    length binary_data = (5 * length commands)%nat.
Proof.
  intros Hparse. apply parse_program_inv in Hparse.
  destruct (validated_chunks _ _ Hparse) as (chunks & Hall & Hlen).
  exists (concat chunks). split; [| done].
  unfold assemble_to_bytes. by rewrite (assemble_loop_Forall2 [] _ _ Hall).
Qed.

Lemma accepted_program_assembles_witness :
  exists binary_data : list byte,
    assemble_to_bytes
      [Command "LOAD_CONST" 58 42; Command "STORE_MEM" 24 100;
       Command "LOAD_CONST" 58 15; Command "ABS" 7 101;
       Command "LOAD_MEM" 19 100] = Ok binary_data /\
    length binary_data = (5 * length test_program)%nat.
Proof.
  apply (accepted_program_assembles test_program). vm_compute. reflexivity.
Defined.

(** X7: [assemble_to_bytes] takes its commands in order: the bytes of a
    concatenation are those of the first part followed by those of the
    second, and it raises as soon as one command does. *)
Theorem assemble_to_bytes_app (internal_repr1 internal_repr2 : list command) :
  assemble_to_bytes (internal_repr1 ++ internal_repr2) =
  binary_data1 ← assemble_to_bytes internal_repr1;
  binary_data2 ← assemble_to_bytes internal_repr2;
  Ok (binary_data1 ++ binary_data2)%list.
Proof.
  unfold assemble_to_bytes. rewrite assemble_loop_app.
  destruct (assemble_loop [] internal_repr1) as [binary_data1|e]; [| done].
  cbn [mbind result_bind rbind]. by rewrite assemble_loop_acc.
Qed.

(** X8: [assemble_to_bytes] does not validate: a command with a negative
    operand, which [parse_program] never produces, makes [struct.pack]
    raise, and no bytes are returned. *)
Theorem negative_operand_struct_error (cmd : command) (rest : list command) :
  operand cmd < 0 ->
  assemble_to_bytes (cmd :: rest) = Raise StructError.
Proof.
  intros Hneg. unfold assemble_to_bytes. cbn [assemble_loop].
  assert (Hcmd : assemble_command cmd = Raise StructError); [| by rewrite Hcmd].
  destruct cmd as [name code z]. cbn [operand] in Hneg.
  assert (Hrest : Z.shiftr z 2 < 0) by (apply Z.shiftr_neg; lia).
  unfold assemble_command. cbn [opcode opcode_num operand].
  assert (Hpack : forall byte0, Bytes.pack_BI byte0 (Z.shiftr z 2) = Raise StructError).
  { intros byte0. unfold Bytes.pack_BI.
    destruct (Z.leb_spec 0 (Z.shiftr z 2)); [lia |].
    by rewrite andb_false_r. }
  destruct (String.eqb name "LOAD_CONST"); [| apply Hpack].
  destruct (Z.gtb_spec z 0x1FFFF); [lia | apply Hpack].
Qed.

Lemma negative_operand_struct_error_witness :
  assemble_to_bytes [Command "LOAD_MEM" 19 (-1)] = Raise StructError.
Proof.
  apply (negative_operand_struct_error (Command "LOAD_MEM" 19 (-1)) []).
  vm_compute. reflexivity.
Defined.

(** ** The disassembler and the decoder of the interpreter *)

Section Decoders.

Lemma to_Z_inj (b1 b2 : byte) : Bytes.to_Z b1 = Bytes.to_Z b2 -> b1 = b2.
Proof.
  unfold Bytes.to_Z. intros H. apply N2Z.inj in H.
  pose proof (Byte.of_to_N b1) as H1. pose proof (Byte.of_to_N b2) as H2.
  rewrite H in H1. congruence.
Qed.

(** Byte strings of one length that read as the same integer are equal. *)
Lemma from_bytes_little_inj (bs1 bs2 : list byte) :
  length bs1 = length bs2 ->
  Bytes.from_bytes_little bs1 = Bytes.from_bytes_little bs2 ->
  bs1 = bs2.
Proof.
  revert bs2. induction bs1 as [|b1 bs1 IH]; intros [|b2 bs2] Hlen Heq; try done.
  cbn [Bytes.from_bytes_little length] in *.
  pose proof (to_Z_range b1). pose proof (to_Z_range b2).
  assert (Bytes.to_Z b1 = Bytes.to_Z b2 /\
          Bytes.from_bytes_little bs1 = Bytes.from_bytes_little bs2) as [Hb Hbs] by lia.
  f_equal; [by apply to_Z_inj | apply IH; [lia | done]].
Qed.

(** The two fields of [struct.unpack('<BI', bs)], and the integer that
    the five bytes spell. *)
Lemma unpack_BI_word (bs : list byte) :
  length bs = 5%nat ->
  exists byte0 rest : Z,
    Bytes.unpack_BI bs = Ok (byte0, rest) /\
    0 <= byte0 < 256 /\ 0 <= rest < 4294967296 /\
    Bytes.from_bytes_little bs = byte0 + 256 * rest.
Proof.
  intros Hlen. destruct bs as [|b0 [|b1 [|b2 [|b3 [|b4 [|]]]]]]; try done.
  exists (Bytes.to_Z b0), (Bytes.from_bytes_little [b1; b2; b3; b4]).
  split; [done |]. split; [apply to_Z_range |]. split; [| done].
  apply (from_bytes_little_range [b1; b2; b3; b4]).
Qed.

(** The code and the raw operand, as both decoders compute them from the
    two fields, are the six low bits of the word and the bits above. *)
Lemma fields_of_word (byte0 rest : Z) :
  0 <= byte0 < 256 -> 0 <= rest ->
  Z.land byte0 0x3F = (byte0 + 256 * rest) mod 64 /\
  Z.lor (Z.shiftl rest 2) (Z.land (Z.shiftr byte0 6) 0x3) =
    (byte0 + 256 * rest) / 64.
Proof.
  intros Hb Hr.
  change 0x3F with (Z.ones 6). change 0x3 with (Z.ones 2).
  rewrite !Z.land_ones, Z.shiftr_div_pow2 by lia.
  change (2 ^ 6) with 64. change (2 ^ 2) with 4.
  rewrite (lor_shiftl_add _ _ 2) by (change (2 ^ 2) with 4; Z.div_mod_to_equations; lia).
  change (2 ^ 2) with 4. split; Z.div_mod_to_equations; lia.
Qed.

Lemma mnemonic_Some (code : Z) (name : string) :
  mnemonic code = Some name -> In (name, code) OPCODES.
Proof.
  unfold mnemonic, OPCODES. cbn [List.find fst snd In].
  destruct (Z.eqb_spec 58 code) as [<- | ?]; [cbn; intros [= <-]; tauto |].
  destruct (Z.eqb_spec 19 code) as [<- | ?]; [cbn; intros [= <-]; tauto |].
  destruct (Z.eqb_spec 24 code) as [<- | ?]; [cbn; intros [= <-]; tauto |].
  destruct (Z.eqb_spec 7 code) as [<- | ?]; [cbn; intros [= <-]; tauto | done].
Qed.

Lemma mnemonic_None (code : Z) :
  mnemonic code = None -> forall name, ~ In (name, code) OPCODES.
Proof.
  intros Hnone name Hin. apply mnemonic_OPCODES in Hin as [_ Hsome]. congruence.
Qed.

(** [disassemble_command] on five bytes, by the integer they spell. *)
Lemma disassemble_command_word (bs : list byte) :
  length bs = 5%nat ->
  let word := Bytes.from_bytes_little bs in
  disassemble_command bs =
  Ok {| opcode := match mnemonic (word mod 64) with
                  | Some name => name
                  | None => "UNKNOWN_" +:+ pretty (word mod 64)
                  end;
        opcode_num := word mod 64;
        operand := if word mod 64 =? 58 then signed17 (word / 64)
                   else word / 64 |}.
Proof.
  intros Hlen word.
  destruct (unpack_BI_word bs Hlen) as (byte0 & rest & Hunpack & Hb & Hr & Hword).
  destruct (fields_of_word byte0 rest Hb ltac:(lia)) as [Hcode Hoperand].
  unfold disassemble_command. rewrite Hlen, Hunpack.
  cbn [Nat.eqb negb mbind result_bind rbind].
  rewrite Hcode, Hoperand. fold word. rewrite <- Hword. done.
Qed.

End Decoders.

Section Sign.

Lemma land_bit16_parity (operand : Z) :
  0 <= operand ->
  (Z.land operand 0x10000 =? 0) = ((operand / 65536) mod 2 =? 0).
Proof.
  intros Hop.
  assert (Hland : Z.land operand (2 ^ 16) =
                  if Z.testbit operand 16 then 2 ^ 16 else 0).
  { apply Z.bits_inj'. intros n Hn.
    rewrite Z.land_spec, Z.pow2_bits_eqb by lia.
    destruct (Z.eqb_spec 16 n) as [<- | Hne].
    - rewrite andb_true_r.
      destruct (Z.testbit operand 16); [by rewrite Z.pow2_bits_true | by rewrite Z.bits_0].
    - rewrite andb_false_r.
      destruct (Z.testbit operand 16); [| by rewrite Z.bits_0].
      rewrite Z.pow2_bits_false by lia. done. }
  change 0x10000 with (2 ^ 16). rewrite Hland.
  pose proof (Z.testbit_spec' operand 16 ltac:(lia)) as Hbit.
  change (2 ^ 16) with 65536 in *.
  destruct (Z.testbit operand 16); cbn [Z.b2z] in Hbit; rewrite <- Hbit; done.
Qed.

(** The signed reading of a raw operand is a 17-bit one exactly when the
    raw operand has no bit above bit 16, and folding gives it back. *)
Lemma signed17_small (raw : Z) :
  0 <= raw -> -65536 <= signed17 raw <= 65535 ->
  raw <= 0x1FFFF /\
  (if signed17 raw <? 0 then 131072 + signed17 raw else signed17 raw) = raw.
Proof.
  intros Hraw. unfold signed17. rewrite land_bit16_parity by done.
  change (Z.shiftl 1 17) with 131072.
  destruct (Z.eqb_spec ((raw / 65536) mod 2) 0) as [Heven | Hodd]; cbn [negb].
  - intros Hs. split; [lia |]. destruct (Z.ltb_spec raw 0); lia.
  - intros Hs.
    assert (raw <= 131071) by (Z.div_mod_to_equations; lia).
    split; [done |]. destruct (Z.ltb_spec (raw - 131072) 0); lia.
Qed.

End Sign.

(** X9: [disassemble_command] raises on anything but five bytes; on five
    bytes it always returns, with a code below 64 and an operand below
    2^34 that is negative only for code 58, and then not below -2^17. *)
Theorem disassemble_command_total (command_bytes : list byte) :
  (length command_bytes <> 5%nat ->
   disassemble_command command_bytes = Raise (ValueError BadCommandLength)) /\
  (length command_bytes = 5%nat ->
   exists cmd : command,
     disassemble_command command_bytes = Ok cmd /\
     0 <= opcode_num cmd < 64 /\
     - 2 ^ 17 <= operand cmd < 2 ^ 34 /\
     (opcode_num cmd <> 58 -> 0 <= operand cmd)).
Proof.
  split.
  - intros Hlen. unfold disassemble_command.
    destruct (Nat.eqb_spec (length command_bytes) 5); done.
  - intros Hlen. pose proof (disassemble_command_word _ Hlen) as Hdis.
    cbv zeta in Hdis. eexists. split; [exact Hdis |].
    cbn [opcode_num operand].
    pose proof (from_bytes_little_range command_bytes) as Hword.
    rewrite Hlen in Hword. change (256 ^ Z.of_nat 5) with 1099511627776 in Hword.
    set (word := Bytes.from_bytes_little command_bytes) in *.
    assert (Hraw : 0 <= word / 64 < 2 ^ 34).
    { change (2 ^ 34) with 17179869184. Z.div_mod_to_equations. lia. }
    split; [by apply Z.mod_pos_bound |].
    destruct (Z.eqb_spec (word mod 64) 58) as [Heq | Hne].
    + split; [| done]. unfold signed17. change (Z.shiftl 1 17) with (2 ^ 17).
      destruct (negb _); lia.
    + split; [lia | intros _; lia].
Qed.

Lemma disassemble_command_total_witness :
  disassemble_command [x3a; x4d; x00; x00] = Raise (ValueError BadCommandLength) /\
  exists cmd : command,
    disassemble_command [xff; xff; xff; xff; xff] = Ok cmd /\
    0 <= opcode_num cmd < 64 /\
    - 2 ^ 17 <= operand cmd < 2 ^ 34 /\
    (opcode_num cmd <> 58 -> 0 <= operand cmd).
Proof.
  split.
  - apply (proj1 (disassemble_command_total [x3a; x4d; x00; x00])).
    vm_compute. discriminate.
  - apply (proj2 (disassemble_command_total [xff; xff; xff; xff; xff])).
    reflexivity.
Defined.

(** X10: the name that [disassemble_command] returns is the name of its
    code in [OPCODES], or, for a code that [OPCODES] does not have, the
    text [UNKNOWN_] followed by the code in decimal. *)
Theorem disassemble_command_name (command_bytes : list byte) (cmd : command) :
  disassemble_command command_bytes = Ok cmd ->
  In (opcode cmd, opcode_num cmd) OPCODES \/
  opcode cmd = "UNKNOWN_" +:+ pretty (opcode_num cmd) /\
  forall name : string, ~ In (name, opcode_num cmd) OPCODES.
Proof.
  intros Hdis.
  assert (Hlen : length command_bytes = 5%nat).
  { unfold disassemble_command in Hdis.
    destruct (Nat.eqb_spec (length command_bytes) 5); done. }
  rewrite (disassemble_command_word _ Hlen) in Hdis. cbv zeta in Hdis.
  injection Hdis as <-. cbn [opcode opcode_num].
  destruct (mnemonic _) as [name|] eqn:Hname.
  - left. by apply mnemonic_Some.
  - right. split; [done |]. by apply mnemonic_None.
Qed.

Lemma disassemble_command_name_witness :
  In ("UNKNOWN_63", 63) OPCODES \/
  "UNKNOWN_63" = "UNKNOWN_" +:+ pretty 63 /\
  forall name : string, ~ In (name, 63) OPCODES.
Proof.
  apply (disassemble_command_name [xff; x00; x00; x00; x00]
           (Command "UNKNOWN_63" 63 3)).
  vm_compute. reflexivity.
Defined.

(** X11: the decoder of the interpreter and the disassembler read the same
    fields.  For five bytes, [decode_command] on the integer they spell
    (the word that [load_program] stores) returns the code that
    [disassemble_command] returns, and the operand that it returns before
    the sign is applied for code 58. *)
Theorem decoders_agree (command_bytes : list byte) :
  length command_bytes = 5%nat ->
  exists (code raw : Z) (name : string),
    decode_command (Bytes.from_bytes_little command_bytes) = Ok (code, raw) /\
    disassemble_command command_bytes =
      Ok (Command name code (if code =? 58 then signed17 raw else raw)).
Proof.
  intros Hlen.
  pose proof (from_bytes_little_range command_bytes) as Hword.
  rewrite Hlen in Hword. change (256 ^ Z.of_nat 5) with (2 ^ 40) in Hword.
  eexists _, _, _. split.
  - rewrite decode_command_fields.
    destruct (Z.leb_spec 0 (Bytes.from_bytes_little command_bytes)); [| lia].
    destruct (Z.ltb_spec (Bytes.from_bytes_little command_bytes) (2 ^ 40)); [| lia].
    reflexivity.
  - by rewrite (disassemble_command_word _ Hlen).
Qed.

Lemma decoders_agree_witness :
  exists (code raw : Z) (name : string),
    decode_command (Bytes.from_bytes_little [xfa; xff; x7f; x00; x00]) =
      Ok (code, raw) /\
    disassemble_command [xfa; xff; x7f; x00; x00] =
      Ok (Command name code (if code =? 58 then signed17 raw else raw)).
Proof. apply (decoders_agree [xfa; xff; x7f; x00; x00]). reflexivity. Defined.

(** X12: the round trip in the other direction.  When five bytes
    disassemble to an operation of [OPCODES] with an operand that
    validation maps to itself (in [-65536, 65535] for [LOAD_CONST], at most
    0x7FFFFFFF for the others), validating and assembling that instruction
    gives back the same five bytes. *)
Theorem assemble_disassembled (command_bytes : list byte) (cmd : command) :
  disassemble_command command_bytes = Ok cmd ->
  In (opcode cmd, opcode_num cmd) OPCODES ->
  (opcode cmd = "LOAD_CONST" -> -65536 <= operand cmd <= 65535) ->
  (opcode cmd <> "LOAD_CONST" -> operand cmd <= 0x7FFFFFFF) ->
  assemble [instruction (opcode cmd) (operand cmd)] = Ok command_bytes.
Proof.
  intros Hdis Hin Hconst Haddr.
  assert (Hlen : length command_bytes = 5%nat).
  { unfold disassemble_command in Hdis.
    destruct (Nat.eqb_spec (length command_bytes) 5); done. }
  rewrite (disassemble_command_word _ Hlen) in Hdis. cbv zeta in Hdis.
  pose proof (from_bytes_little_range command_bytes) as Hword.
  rewrite Hlen in Hword. change (256 ^ Z.of_nat 5) with 1099511627776 in Hword.
  set (word := Bytes.from_bytes_little command_bytes) in *.
  destruct cmd as [name code z]. injection Hdis as Hname Hcode Hz.
  cbn [opcode opcode_num operand] in *.
  assert (Hraw : 0 <= word / 64) by (Z.div_mod_to_equations; lia).
  assert (Hsplit : word = code + 64 * (word / 64)).
  { rewrite <- Hcode. Z.div_mod_to_equations. lia. }
  (* the entry that validation gives is the raw operand again *)
  assert (Hentry : parse_program [instruction name z] =
                   Ok [Command name code (word / 64)] /\
                   0 <= word / 64 <= 0x7FFFFFFF /\
                   (name = "LOAD_CONST" -> word / 64 <= 0x1FFFF)).
  { destruct (String.eqb_spec name "LOAD_CONST") as [-> | Hne].
    - specialize (Hconst eq_refl).
      assert (code = 58) as Hc.
      { simpl in Hin. by destruct Hin as [[= <-] | [[=] | [[=] | [[=] | []]]]]. }
      rewrite Hc in *. rewrite Hcode in Hz. cbn [Z.eqb Pos.eqb] in Hz.
      rewrite <- Hz in Hconst.
      destruct (signed17_small _ Hraw Hconst) as [Hsmall Hfold].
      rewrite Hz in Hfold, Hconst.
      split; [| split; [lia | done]].
      apply parse_program_single. rewrite parse_command_LOAD_CONST.
      destruct (Z.ltb_spec z (-65536)); [lia |].
      destruct (Z.gtb_spec z 131071); [lia |]. cbn [orb]. by rewrite Hfold.
    - specialize (Haddr Hne).
      assert (code <> 58) as Hc.
      { simpl in Hin.
        by destruct Hin as [[= <- <-] | [[= <- <-] | [[= <- <-] | [[= <- <-] | []]]]]. }
      rewrite Hcode in Hz. apply Z.eqb_neq in Hc as Hcb. rewrite Hcb in Hz.
      rewrite Hz. split; [| split; [lia | done]].
      apply parse_program_single. rewrite (parse_command_address _ code) by done.
      destruct (Z.ltb_spec z 0); [lia |].
      destruct (Z.gtb_spec z 0x7FFFFFFF); [lia | done]. }
  destruct Hentry as (Hparse & Hbound & Hbound17).
  destruct (disassemble_assemble_command name code (word / 64) Hin Hbound Hbound17)
    as (bs & Hasm & Hbs & _).
  unfold assemble. rewrite Hparse. cbn [mbind result_bind rbind].
  rewrite (assemble_to_bytes_single _ _ Hasm). f_equal.
  apply from_bytes_little_inj; [congruence |].
  destruct (mnemonic_OPCODES _ _ Hin) as [Hcode64 _].
  assert (Hfits : 0 <= word / 64 <= 0x1FFFF \/
                  name <> "LOAD_CONST" /\ 0 <= word / 64).
  { destruct (String.eqb_spec name "LOAD_CONST") as [Heq | Hne].
    - left. specialize (Hbound17 Heq). lia.
    - right. split; [done | lia]. }
  rewrite (assemble_command_word (Command name code (word / 64)) bs Hcode64 Hfits Hasm).
  cbn [opcode_num operand]. lia.
Qed.

Lemma assemble_disassembled_witness :
  assemble [instruction "LOAD_CONST" (-15)] = Ok [x7a; xfc; x7f; x00; x00].
Proof.
  apply (assemble_disassembled [x7a; xfc; x7f; x00; x00]
           (Command "LOAD_CONST" 58 (-15))).
  - vm_compute. reflexivity.
  - left. reflexivity.
  - intros _. cbn. lia.
  - intros H. exfalso. apply H. reflexivity.
Defined.

(** ** One call of [execute_step], whatever the machine *)

Section StepCases.

(** [execute_step] either returns [False] at once, or lets an exception
    of the fetch or of the decoder through, in both cases without
    touching the machine, or dispatches. *)
Lemma end_of_program_stays (self : machine) :
  pc self >= len (memory self) \/
  PyList.getitem (memory self) (pc self) = Ok 0 ->
  execute_step self = (self, Ok false).
Proof.
  destruct self as [m a p h]. cbn [pc memory]. intros Hend.
  exec_unfold. destruct h; [done |]. cbn [orb].
  destruct (Z.geb_spec p (len m)) as [Hge | Hlt]; [done |].
  destruct Hend as [Hge | Hzero]; [lia |].
  by rewrite Hzero.
Qed.

Lemma execute_step_cases (self : machine) :
  execute_step self = (self, Ok false) \/
  (exists e, execute_step self = (self, Raise e)) \/
  (exists opcode operand, dispatches self opcode operand).
Proof.
  destruct self as [m a p h].
  destruct h; [by left |].
  destruct (Z.geb_spec p (len m)) as [Hge | Hlt].
  { left. apply end_of_program_stays. left. cbn. lia. }
  destruct (PyList.getitem m p) as [command|e] eqn:Hget.
  2: { right. left. exists e. exec_unfold. cbn [orb].
       destruct (Z.geb_spec p (len m)); [lia |]. by rewrite Hget. }
  destruct (Z.eqb_spec command 0) as [-> | Hnz].
  { left. apply end_of_program_stays. by right. }
  destruct (decode_command command) as [[opcode operand]|e] eqn:Hdec.
  - right. right. exists opcode, operand.
    split; [done |]. split; [done |]. by exists command.
  - right. left. exists e. exec_unfold. cbn [orb].
    destruct (Z.geb_spec p (len m)); [lia |]. rewrite Hget.
    destruct (Z.eqb_spec command 0); [done |]. by rewrite Hdec.
Qed.

End StepCases.

Section StepFacts.

Lemma execute_step_facts (self self' : machine) (r : result bool) :
  execute_step self = (self', r) ->
  length (memory self') = length (memory self) /\
  (r = Ok true ->
   halted self = false /\ halted self' = false /\
   pc self < len (memory self) /\ pc self' = pc self + 1) /\
  (r = Ok false -> pc self' = pc self /\ execute_step self' = (self', Ok false)) /\
  (forall e, r = Raise e -> self' = self).
Proof.
  intros Hstep.
  destruct (execute_step_cases self) as [H | [[e H] | (opcode & operand & H)]].
  - rewrite H in Hstep. injection Hstep as <- <-.
    split; [done |]. split; [done |]. split; [intros _; by split | done].
  - rewrite H in Hstep. injection Hstep as <- <-.
    split; [done |]. split; [done |]. split; [done |]. done.
  - pose proof H as (Hh & Hpc & _).
    rewrite (execute_step_dispatch _ _ _ H) in Hstep. cbv zeta in Hstep.
    repeat match type of Hstep with
           | (if ?b then _ else _) = _ => destruct b
           end;
      injection Hstep as <- <-; cbn [memory accumulator pc halted];
      rewrite ?length_insert;
      (split; [done |]);
      (split; [intros Hr; first [discriminate Hr | by repeat split] |]);
      (split; [intros Hr; first [discriminate Hr | split; [done | reflexivity]]
              | intros e Hr; discriminate Hr]).
Qed.

Lemma run_unfold (fuel : nat) (self : machine) :
  run (S fuel) self =
  match execute_step self with
  | (self1, Ok true) => run fuel self1
  | (self1, Ok false) => (self1, Ok (Some tt))
  | (self1, Raise e) => (self1, Raise e)
  end.
Proof.
  cbn [run]. unfold mbind, exec_bind.
  by destruct (execute_step self) as [self1 [[|]|e]].
Qed.

End StepFacts.

(** X13: what one call of [execute_step] can do to a machine, whatever
    its state.  The memory keeps its length.  When the call returns
    [True] the machine was not halted, is still not halted, and the
    program counter, which was below the memory length, has advanced by
    one.  When it returns [False] the program counter has not moved, and
    calling again returns [False] again without changing anything.  When
    an exception leaves the call the machine is unchanged. *)
Theorem execute_step_outcome (self self' : machine) (r : result bool) :
  execute_step self = (self', r) ->
  length (memory self') = length (memory self) /\
  (r = Ok true ->
   halted self = false /\ halted self' = false /\
   pc self < len (memory self) /\ pc self' = pc self + 1) /\
  (r = Ok false -> pc self' = pc self /\ execute_step self' = (self', Ok false)) /\
  (forall e, r = Raise e -> self' = self).
Proof. apply execute_step_facts. Qed.

(** [STORE_MEM 2] on a machine of three cells, after [LOAD_CONST 7]. *)
Lemma execute_step_outcome_witness :
  length [506; 152; 7] = length [506; 152; 0] /\
  (Ok true = Ok true ->
   false = false /\ false = false /\ 1 < len [506; 152; 0] /\ 2 = 1 + 1) /\
  (Ok true = Ok false ->
   2 = 1 /\
   execute_step (Machine [506; 152; 7] 7 2 false) =
     (Machine [506; 152; 7] 7 2 false, Ok false)) /\
  (forall e, Ok true = Raise e ->
             Machine [506; 152; 7] 7 2 false = Machine [506; 152; 0] 7 1 false).
Proof.
  apply (execute_step_outcome (Machine [506; 152; 0] 7 1 false)
           (Machine [506; 152; 7] 7 2 false) (Ok true)).
  vm_compute. reflexivity.
Defined.

(** X14: [run] ends.  With more calls allowed than there are cells from
    the program counter to the end of the memory, the loop is over before
    the calls run out: [run] returns or an exception of [execute_step]
    leaves it.  When it returns, the machine it leaves is one on which
    [execute_step] returns [False]; its memory has the length it had. *)
Theorem run_terminates (fuel : nat) (self : machine) :
  (Z.to_nat (len (memory self) - pc self) < fuel)%nat ->
  exists (self' : machine) (r : result (option unit)),
    run fuel self = (self', r) /\
    r <> Ok None /\
    length (memory self') = length (memory self) /\
    (r = Ok (Some tt) -> execute_step self' = (self', Ok false)).
Proof.
  revert self. induction fuel as [|fuel IH]; intros self Hfuel; [lia |].
  rewrite run_unfold.
  destruct (execute_step self) as [self1 r1] eqn:Hstep.
  destruct (execute_step_facts _ _ _ Hstep) as (Hlen & Htrue & Hfalse & Hraise).
  destruct r1 as [[|]|e].
  - destruct (Htrue eq_refl) as (_ & _ & Hpc & Hpc1).
    destruct (IH self1) as (self' & r & Hrun & Hr & Hlen' & Hstop).
    { unfold len in *. rewrite Hlen, Hpc1. lia. }
    exists self', r. split; [done |]. split; [done |].
    split; [congruence | done].
  - exists self1, (Ok (Some tt)). split; [done |]. split; [done |].
    split; [done |]. intros _. by destruct (Hfalse eq_refl).
  - exists self1, (Raise e). split; [done |]. split; [done |].
    split; [done |]. done.
Qed.

Lemma run_terminates_witness :
  exists (self' : machine) (r : result (option unit)),
    run 4 (Machine [506; 152; 0] 0 0 false) = (self', r) /\
    r <> Ok None /\
    length (memory self') = length [506; 152; 0] /\
    (r = Ok (Some tt) -> execute_step self' = (self', Ok false)).
Proof.
  apply (run_terminates 4 (Machine [506; 152; 0] 0 0 false)).
  vm_compute. lia.
Defined.

(** X15: a word that does not fit five bytes, such as the negative
    accumulator that [STORE_MEM] can leave in a cell that the program
    counter reaches, makes [int.to_bytes] raise before the [try]:
    [OverflowError] leaves [execute_step], the machine is unchanged and
    [halted] is not set. *)
Theorem unencodable_word_raises (self : machine) (command : Z) :
  halted self = false ->
  pc self < len (memory self) ->
  PyList.getitem (memory self) (pc self) = Ok command ->
  command < 0 \/ 2 ^ 40 <= command ->
  execute_step self = (self, Raise OverflowError).
Proof.
  destruct self as [m a p h]. cbn [halted pc memory].
  intros -> Hpc Hget Hrange. exec_unfold. cbn [orb].
  destruct (Z.geb_spec p (len m)); [lia |]. rewrite Hget.
  destruct (Z.eqb_spec command 0); [lia |].
  rewrite decode_command_fields.
  destruct (Z.leb_spec 0 command); [| done].
  destruct (Z.ltb_spec command (2 ^ 40)); [lia | done].
Qed.

(** [LOAD_CONST -7; STORE_MEM 2] on three cells, at the cell it wrote. *)
Lemma unencodable_word_raises_witness :
  demo 3 [instruction "LOAD_CONST" (-7); instruction "STORE_MEM" 2] 2 =
    Ok (Machine [8388218; 152; -7] (-7) 2 false, Ok None) /\
  execute_step (Machine [8388218; 152; -7] (-7) 2 false) =
    (Machine [8388218; 152; -7] (-7) 2 false, Raise OverflowError).
Proof.
  split; [reflexivity |].
  apply (unencodable_word_raises (Machine [8388218; 152; -7] (-7) 2 false) (-7)).
  - reflexivity.
  - reflexivity.
  - reflexivity.
  - left. lia.
Defined.

(** X16: [get_memory_cell] never raises and never changes the machine; it
    gives the cell at a non-negative address below the memory length and
    [None] at any other address: a negative address does not count from
    the end, as it would in [self.memory[address]]. *)
Theorem get_memory_cell_lookup (address : Z) (self : machine) :
  get_memory_cell address self =
  (self, Ok (if 0 <=? address then memory self !! Z.to_nat address else None)).
Proof.
  destruct self as [m a p h]. unfold get_memory_cell. exec_unfold.
  destruct (Z.leb_spec 0 address) as [Hlo | Hlo]; [| done].
  destruct (Z.ltb_spec address (len m)) as [Hhi | Hhi]; cbn [andb].
  - unfold PyList.getitem, PyList.position. fold (len m).
    destruct (Z.leb_spec 0 address); [| lia].
    destruct (Z.ltb_spec address (len m)); [| lia]. cbn [andb].
    destruct (lookup_lt_is_Some_2 m (Z.to_nat address)) as [v Hv].
    { unfold len in *. lia. }
    by rewrite Hv.
  - rewrite lookup_ge_None_2; [done |]. unfold len in *. lia.
Qed.

(** X17: what [load_program] leaves depends on the machine only through
    the length of its memory: two machines with memories of one length are
    the same machine after loading the same program, whatever they held
    and whether they were halted. *)
Theorem load_program_fresh (binary_data : list byte) (self1 self2 : machine) :
  (length binary_data mod 5 = 0)%nat ->
  length (memory self1) = length (memory self2) ->
  load_program binary_data self1 = load_program binary_data self2.
Proof.
  intros Hmod Hlen. rewrite !load_program_loaded by done. by rewrite Hlen.
Qed.

Lemma load_program_fresh_witness :
  load_program [xfa; x01; x00; x00; x00] (Machine [506; 152; -7] (-7) 2 true) =
  load_program [xfa; x01; x00; x00; x00] (__init__ 3).
Proof.
  apply (load_program_fresh [xfa; x01; x00; x00; x00]
           (Machine [506; 152; -7] (-7) 2 true) (__init__ 3)).
  - reflexivity.
  - reflexivity.
Defined.

(** ** From the assembler to the machine *)

Section Words.

Lemma OPCODES_code_range (name : string) (code : Z) :
  In (name, code) OPCODES -> 0 < code < 64.
Proof.
  simpl.
  intros [[= <- <-] | [[= <- <-] | [[= <- <-] | [[= <- <-] | []]]]]; lia.
Qed.

(** The word of a validated entry: five bytes that spell the code plus 64
    times the operand, which is not zero and which [decode_command] takes
    apart again. *)
Lemma validated_entry_word (cmd : gmap string json) (entry : command) :
  parse_command cmd = Ok entry ->
  exists bs : list byte,
    assemble_command entry = Ok bs /\
    length bs = 5%nat /\
    Bytes.from_bytes_little bs = opcode_num entry + 64 * operand entry /\
    Bytes.from_bytes_little bs <> 0 /\
    decode_command (Bytes.from_bytes_little bs) =
      Ok (opcode_num entry, operand entry).
Proof.
  intros Hcmd. destruct (parse_command_bounds _ _ Hcmd) as (Hin & Hop & Hconst).
  pose proof (OPCODES_code_range _ _ Hin) as Hcode.
  destruct entry as [name code z]. cbn [opcode opcode_num operand] in *.
  destruct (disassemble_assemble_command name code z Hin Hop Hconst)
    as (bs & Hasm & Hlen & _).
  exists bs. split; [done |]. split; [done |].
  assert (Hfits : 0 <= z <= 0x1FFFF \/ name <> "LOAD_CONST" /\ 0 <= z).
  { destruct (String.eqb_spec name "LOAD_CONST") as [Heq | Hne].
    - left. specialize (Hconst Heq). lia.
    - right. split; [done | lia]. }
  pose proof (assemble_command_word (Command name code z) bs
                ltac:(cbn; lia) Hfits Hasm) as Hword.
  cbn [opcode_num operand] in Hword. rewrite Hword.
  split; [done |]. split; [lia |].
  rewrite decode_command_fields.
  destruct (Z.leb_spec 0 (code + 64 * z)); [| lia].
  destruct (Z.ltb_spec (code + 64 * z) (2 ^ 40)) as [_ | Hbig].
  2: { change (2 ^ 40) with 1099511627776 in Hbig. lia. }
  cbn [andb]. do 2 f_equal; Z.div_mod_to_equations; lia.
Qed.

(** Slicing the concatenation of five-byte chunks gives the chunks. *)
Lemma slice_concat (chunks : list (list byte)) (i : nat) (chunk : list byte) :
  Forall (fun c => length c = 5%nat) chunks ->
  chunks !! i = Some chunk ->
  Bytes.slice (concat chunks) (5 * i) (5 * i + 5) = chunk.
Proof.
  intros Hall. revert i.
  induction Hall as [|c chunks Hc _ IH]; intros i Hi; [done |].
  unfold Bytes.slice in *. replace (5 * i + 5 - 5 * i)%nat with 5%nat by lia.
  destruct i as [|i]; cbn [concat].
  - injection Hi as ->. cbn [drop]. by apply take_app_length'.
  - replace (5 * S i)%nat with (5 + 5 * i)%nat by lia.
    rewrite drop_app_add' by done.
    specialize (IH i Hi).
    by replace (5 * i + 5 - 5 * i)%nat with 5%nat in IH by lia.
Qed.

(** The bytes of a validated program, chunk by chunk. *)
Lemma validated_program_chunks (commands : list (gmap string json))
    (entries : list command) :
  Forall2 (fun cmd entry => parse_command cmd = Ok entry) commands entries ->
  exists chunks : list (list byte),
    assemble_to_bytes entries = Ok (concat chunks) /\
    Forall (fun c => length c = 5%nat) chunks /\
    Forall2 (fun entry bs =>
               Bytes.from_bytes_little bs <> 0 /\
               decode_command (Bytes.from_bytes_little bs) =
                 Ok (opcode_num entry, operand entry))
            entries chunks.
Proof.
  intros Hall.
  assert (exists chunks : list (list byte),
             Forall2 (fun entry bs => assemble_command entry = Ok bs) entries chunks /\
             Forall (fun c => length c = 5%nat) chunks /\
             Forall2 (fun entry bs =>
                        Bytes.from_bytes_little bs <> 0 /\
                        decode_command (Bytes.from_bytes_little bs) =
                          Ok (opcode_num entry, operand entry))
                     entries chunks) as (chunks & Hasm & Hlen & Hdec).
  { induction Hall as [|cmd entry commands entries Hcmd _ (chunks & H1 & H2 & H3)].
    - exists []. by repeat constructor.
    - destruct (validated_entry_word _ _ Hcmd) as (bs & Hasm & Hlen & _ & Hnz & Hdec).
      exists (bs :: chunks). by repeat constructor. }
  exists chunks. split; [| done].
  unfold assemble_to_bytes. by rewrite (assemble_loop_Forall2 [] _ _ Hasm).
Qed.

End Words.

(** X18: assembling and loading.  When [parse_program] accepts a program
    and [assemble_to_bytes] has given its bytes, [load_program] returns,
    and each cell [i] of the memory, as far as the memory goes, holds for
    instruction [i] a word that is not zero and that [decode_command]
    decodes to the code and the validated operand of that instruction, in
    order; the cells after the last instruction hold zero. *)
Theorem loaded_program_decodes (commands : list (gmap string json))
    (entries : list command) (binary_data : list byte) (self : machine) :
  parse_program commands = Ok entries ->
  assemble_to_bytes entries = Ok binary_data ->
  exists self' : machine,
    load_program binary_data self = (self', Ok tt) /\
    forall i : nat,
      (i < length (memory self))%nat ->
      match entries !! i with
      | Some entry =>
          exists word : Z,
            memory self' !! i = Some word /\
            word <> 0 /\
            decode_command word = Ok (opcode_num entry, operand entry)
      | None => memory self' !! i = Some 0
      end.
Proof.
  intros Hparse Hasm. apply parse_program_inv in Hparse.
  destruct (validated_program_chunks _ _ Hparse) as (chunks & Hasm' & Hlen & Hdec).
  rewrite Hasm' in Hasm. injection Hasm as <-.
  assert (Hsize : length (concat chunks) = (5 * length chunks)%nat).
  { clear -Hlen. induction Hlen as [|c chunks Hc _ IH]; [done |].
    cbn [concat length]. rewrite length_app, Hc, IH. lia. }
  assert (Hmod : (length (concat chunks) mod 5 = 0)%nat).
  { rewrite Hsize, Nat.mul_comm. by apply Nat.Div0.mod_mul. }
  assert (Hdiv : (length (concat chunks) / 5 = length chunks)%nat).
  { rewrite Hsize, Nat.mul_comm. by apply Nat.div_mul. }
  eexists. split; [by apply load_program_loaded |].
  intros i Hi. cbn [memory]. rewrite lookup_loaded_memory, Hdiv by done.
  destruct (entries !! i) as [entry|] eqn:Hentry.
  - destruct (Forall2_lookup_l _ _ _ _ _ Hdec Hentry) as (chunk & Hchunk & Hnz & Hd).
    apply lookup_lt_Some in Hchunk as Hlt.
    destruct (Nat.ltb_spec i (length chunks)); [| lia].
    unfold instruction_word. rewrite (slice_concat _ _ _ Hlen Hchunk).
    by exists (Bytes.from_bytes_little chunk).
  - apply lookup_ge_None in Hentry.
    rewrite (Forall2_length _ _ _ Hdec) in Hentry.
    destruct (Nat.ltb_spec i (length chunks)); [lia | done].
Qed.

Lemma loaded_program_decodes_witness :
  exists self' : machine,
    load_program
      [xba; x0a; x00; x00; x00; x18; x19; x00; x00; x00; xfa; x03; x00; x00; x00;
       x47; x19; x00; x00; x00; x13; x19; x00; x00; x00]
      (__init__ 8) = (self', Ok tt) /\
    forall i : nat,
      (i < length (memory (__init__ 8)))%nat ->
      match [Command "LOAD_CONST" 58 42; Command "STORE_MEM" 24 100;
             Command "LOAD_CONST" 58 15; Command "ABS" 7 101;
             Command "LOAD_MEM" 19 100] !! i with
      | Some entry =>
          exists word : Z,
            memory self' !! i = Some word /\
            word <> 0 /\
            decode_command word = Ok (opcode_num entry, operand entry)
      | None => memory self' !! i = Some 0
      end.
Proof.
  apply (loaded_program_decodes test_program).
  - vm_compute. reflexivity.
  - vm_compute. reflexivity.
Defined.

Section Fetch.

Lemma assemble_to_bytes_one (cmd : command) :
  assemble_to_bytes [cmd] = assemble_command cmd.
Proof.
  unfold assemble_to_bytes. cbn [assemble_loop].
  by destruct (assemble_command cmd).
Qed.

(** A machine that fetches the word of an assembled instruction
    dispatches on the code and the validated operand of it. *)
Lemma fetched_instruction_dispatches (self : machine) (name : string) (z : Z)
    (bs : list byte) :
  assemble [instruction name z] = Ok bs ->
  halted self = false ->
  pc self < len (memory self) ->
  PyList.getitem (memory self) (pc self) = Ok (Bytes.from_bytes_little bs) ->
  exists entry : command,
    parse_command (instruction name z) = Ok entry /\
    dispatches self (opcode_num entry) (operand entry).
Proof.
  unfold assemble. intros Hasm Hh Hpc Hget.
  destruct (parse_program [instruction name z]) as [entries|e] eqn:Hparse; [| done].
  cbn [mbind result_bind rbind] in Hasm.
  apply parse_program_inv in Hparse.
  inversion Hparse as [|cmd entry l1 l2 Hcmd Hnil]; subst.
  inversion Hnil; subst. rewrite assemble_to_bytes_one in Hasm.
  exists entry. split; [done |].
  destruct (validated_entry_word _ _ Hcmd) as (bs' & Hasm' & _ & _ & Hnz & Hdec).
  assert (bs' = bs) as -> by congruence.
  split; [done |]. split; [done |].
  by exists (Bytes.from_bytes_little bs).
Qed.

End Fetch.

(** X19: executing [LOAD_CONST].  On a machine that is not halted and
    fetches the word of an assembled [LOAD_CONST z], [execute_step] returns
    [True], advances the program counter by one, leaves the memory alone
    and sets the accumulator to [z] when [z] is below 65536, and to [z]
    minus 131072 when [z] is in [65536, 131071]. *)
Theorem LOAD_CONST_executes (self : machine) (z : Z) (bs : list byte) :
  assemble [instruction "LOAD_CONST" z] = Ok bs ->
  halted self = false ->
  pc self < len (memory self) ->
  PyList.getitem (memory self) (pc self) = Ok (Bytes.from_bytes_little bs) ->
  execute_step self =
  ({| memory := memory self;
      accumulator := if z <? 65536 then z else z - 131072;
      pc := pc self + 1;
      halted := false |}, Ok true).
Proof.
  intros Hasm Hh Hpc Hget.
  destruct (fetched_instruction_dispatches _ _ _ _ Hasm Hh Hpc Hget)
    as (entry & Hcmd & Hdispatch).
  rewrite parse_command_LOAD_CONST in Hcmd.
  destruct (Z.ltb_spec z (-65536)); [done |].
  destruct (Z.gtb_spec z 131071); [done |].
  cbn [orb] in Hcmd. injection Hcmd as <-. cbn [opcode_num operand] in Hdispatch.
  rewrite (execute_step_dispatch _ _ _ Hdispatch). cbv zeta.
  cbn [Z.eqb Pos.eqb]. do 2 f_equal.
  change (Z.shiftl 1 17) with 131072.
  rewrite land_bit16 by (destruct (Z.ltb_spec z 0); lia).
  repeat match goal with
         | |- context [Z.ltb ?a ?b] => destruct (Z.ltb_spec a b)
         end; cbn [negb]; lia.
Qed.

Lemma LOAD_CONST_executes_witness :
  execute_step (Machine [8388218; 152; 0] 0 0 false) =
  (Machine [8388218; 152; 0] (-7) 1 false, Ok true).
Proof.
  apply (LOAD_CONST_executes (Machine [8388218; 152; 0] 0 0 false) (-7)
           [x7a; xfe; x7f; x00; x00]).
  - vm_compute. reflexivity.
  - reflexivity.
  - reflexivity.
  - reflexivity.
Defined.

(** X20: executing the three memory instructions.  On a machine that is
    not halted and fetches the word of an assembled instruction with an
    address below the memory length, [execute_step] returns [True] and
    advances the program counter by one; [LOAD_MEM] copies the cell at the
    address to the accumulator, [STORE_MEM] copies the accumulator to that
    cell, and [ABS] puts the absolute value of the accumulator in both;
    nothing else changes. *)
Theorem memory_instructions_execute (self : machine) (address : Z)
    (bs : list byte) :
  halted self = false ->
  pc self < len (memory self) ->
  PyList.getitem (memory self) (pc self) = Ok (Bytes.from_bytes_little bs) ->
  address < len (memory self) ->
  (assemble [instruction "LOAD_MEM" address] = Ok bs ->
   exists v : Z,
     memory self !! Z.to_nat address = Some v /\
     execute_step self =
     ({| memory := memory self; accumulator := v;
         pc := pc self + 1; halted := false |}, Ok true)) /\
  (assemble [instruction "STORE_MEM" address] = Ok bs ->
   execute_step self =
   ({| memory := <[Z.to_nat address := accumulator self]> (memory self);
       accumulator := accumulator self;
       pc := pc self + 1; halted := false |}, Ok true)) /\
  (assemble [instruction "ABS" address] = Ok bs ->
   execute_step self =
   ({| memory := <[Z.to_nat address := Z.abs (accumulator self)]> (memory self);
       accumulator := Z.abs (accumulator self);
       pc := pc self + 1; halted := false |}, Ok true)).
Proof.
  intros Hh Hpc Hget Haddr.
  assert (Hstep : forall name code,
            In (name, code) OPCODES -> name <> "LOAD_CONST" ->
            assemble [instruction name address] = Ok bs ->
            0 <= address /\ dispatches self code address).
  { intros name code Hin Hne Hasm.
    destruct (fetched_instruction_dispatches _ _ _ _ Hasm Hh Hpc Hget)
      as (entry & Hcmd & Hdispatch).
    rewrite (parse_command_address _ code) in Hcmd by done.
    destruct (Z.ltb_spec address 0); [done |].
    destruct (Z.gtb_spec address 0x7FFFFFFF); [done |].
    injection Hcmd as <-. by split. }
  assert (Hlt : (address >=? len (memory self)) = false).
  { destruct (Z.geb_spec address (len (memory self))); [lia | done]. }
  split; [| split]; intros Hasm.
  - destruct (Hstep "LOAD_MEM" 19) as [Hnn Hdispatch];
      [right; left; reflexivity | done | done |].
    destruct (lookup_lt_is_Some_2 (memory self) (Z.to_nat address)) as [v Hv].
    { unfold len in *. lia. }
    exists v. split; [done |].
    rewrite (execute_step_dispatch _ _ _ Hdispatch). cbv zeta.
    cbn [Z.eqb Pos.eqb]. by rewrite Hlt, Hv.
  - destruct (Hstep "STORE_MEM" 24) as [Hnn Hdispatch];
      [right; right; left; reflexivity | done | done |].
    rewrite (execute_step_dispatch _ _ _ Hdispatch). cbv zeta.
    cbn [Z.eqb Pos.eqb]. by rewrite Hlt.
  - destruct (Hstep "ABS" 7) as [Hnn Hdispatch];
      [right; right; right; left; reflexivity | done | done |].
    rewrite (execute_step_dispatch _ _ _ Hdispatch). cbv zeta.
    cbn [Z.eqb Pos.eqb]. by rewrite Hlt.
Qed.

(** [STORE_MEM 2] on three cells, after [LOAD_CONST -7]. *)
Lemma memory_instructions_execute_witness :
  execute_step (Machine [8388218; 152; 0] (-7) 1 false) =
  (Machine [8388218; 152; -7] (-7) 2 false, Ok true).
Proof.
  apply (proj1 (proj2 (memory_instructions_execute
                         (Machine [8388218; 152; 0] (-7) 1 false) 2
                         [x98; x00; x00; x00; x00]
                         eq_refl eq_refl eq_refl eq_refl))).
  vm_compute. reflexivity.
Defined.

(** X21: [decode_command] splits a word arithmetically: on a word from 0
    to 2^40 - 1 it returns the word modulo 64 as the code and the word
    divided by 64 as the operand, so that the code is below 64 and the
    operand below 2^34; on any other integer it raises [OverflowError]. *)
Theorem decode_command_splits (command : Z) :
  (0 <= command < 2 ^ 40 ->
   decode_command command = Ok (command mod 64, command / 64) /\
   0 <= command mod 64 < 64 /\ 0 <= command / 64 < 2 ^ 34) /\
  (command < 0 \/ 2 ^ 40 <= command ->
   decode_command command = Raise OverflowError).
Proof.
  rewrite decode_command_fields. split.
  - intros [Hlo Hhi].
    destruct (Z.leb_spec 0 command); [| lia].
    destruct (Z.ltb_spec command (2 ^ 40)); [| lia].
    split; [done |]. change (2 ^ 40) with 1099511627776 in Hhi.
    change (2 ^ 34) with 17179869184.
    split; Z.div_mod_to_equations; lia.
  - intros Hout.
    destruct (Z.leb_spec 0 command); [| done].
    destruct (Z.ltb_spec command (2 ^ 40)); [lia | done].
Qed.

Lemma decode_command_splits_witness :
  (decode_command 2746 = Ok (2746 mod 64, 2746 / 64) /\
   0 <= 2746 mod 64 < 64 /\ 0 <= 2746 / 64 < 2 ^ 34) /\
  decode_command (-7) = Raise OverflowError.
Proof.
  split.
  - apply (proj1 (decode_command_splits 2746)). lia.
  - apply (proj2 (decode_command_splits (-7))). left. lia.
Defined.

(** X22: the interpreter and the disassembler give a [LOAD_CONST] the same
    sign.  When five bytes disassemble to code 58, a machine that is not
    halted and fetches the word they spell executes it by setting the
    accumulator to the operand that [disassemble_command] reports. *)
Theorem LOAD_CONST_as_disassembled (self : machine) (command_bytes : list byte)
    (cmd : command) :
  disassemble_command command_bytes = Ok cmd ->
  opcode_num cmd = 58 ->
  halted self = false ->
  pc self < len (memory self) ->
  PyList.getitem (memory self) (pc self) =
    Ok (Bytes.from_bytes_little command_bytes) ->
  execute_step self =
  ({| memory := memory self;
      accumulator := operand cmd;
      pc := pc self + 1;
      halted := false |}, Ok true).
Proof.
  intros Hdis Hcode Hh Hpc Hget.
  assert (Hlen : length command_bytes = 5%nat).
  { unfold disassemble_command in Hdis.
    destruct (Nat.eqb_spec (length command_bytes) 5); done. }
  rewrite (disassemble_command_word _ Hlen) in Hdis. cbv zeta in Hdis.
  pose proof (from_bytes_little_range command_bytes) as Hword.
  rewrite Hlen in Hword. change (256 ^ Z.of_nat 5) with (2 ^ 40) in Hword.
  set (word := Bytes.from_bytes_little command_bytes) in *.
  injection Hdis as <-. cbn [opcode_num operand] in *.
  assert (Hdispatch : dispatches self 58 (word / 64)).
  { split; [done |]. split; [done |]. exists word. split; [done |].
    split; [intros Hz; rewrite Hz in Hcode; done |].
    rewrite decode_command_fields, Hcode.
    destruct (Z.leb_spec 0 word); [| lia].
    destruct (Z.ltb_spec word (2 ^ 40)); [done | lia]. }
  rewrite (execute_step_dispatch _ _ _ Hdispatch). cbv zeta.
  by rewrite Hcode.
Qed.

Lemma LOAD_CONST_as_disassembled_witness :
  execute_step (Machine [8388218; 152; 0] 0 0 false) =
  (Machine [8388218; 152; 0] (operand (Command "LOAD_CONST" 58 (-7))) 1 false,
   Ok true).
Proof.
  apply (LOAD_CONST_as_disassembled (Machine [8388218; 152; 0] 0 0 false)
           [x7a; xfe; x7f; x00; x00] (Command "LOAD_CONST" 58 (-7))).
  - vm_compute. reflexivity.
  - reflexivity.
  - reflexivity.
  - reflexivity.
  - reflexivity.
Defined.
